(** * Arnold-cell absorption simulator: model of [coluna_absorcao.py]

    The script fits the pseudo-steady-state diffusion model to meniscus
    heights, corrects a reference diffusivity to the working temperature
    and reports the relative error between both.

    Numeric convention.  A binary64 value is either a finite number, an
    infinity or NaN.  Finite values are read as real numbers and the
    arithmetic on them is exact (no rounding, no overflow, one unsigned
    zero); the non-finite values and the Python exceptions are kept,
    because the behaviour of the script on invalid parameters is decided
    by them.  Two kinds of floats occur in the script and they differ on
    division by zero: a Python [float] raises [ZeroDivisionError], a
    NumPy [float64] returns an infinity or NaN.

    Scope.  The sidebar values, the times, the diffusivities and the cells
    of the uploaded columns are finite numbers.  The layout of the page,
    the plots and the CSV export are left out; [curve_fit] is SciPy's and
    is not modelled. *)

From Stdlib Require Import Reals Lra.
From stdpp Require Import base decidable option list strings pretty gmap.

Open Scope R_scope.

(** ** Python results *)

Module Py.

Inductive exn : Type :=
| ZeroDivisionError (msg : string)
| IndexError (msg : string)
| KeyError (msg : string).

(** [str(e)] *)
Definition str (e : exn) : string :=
  match e with
  | ZeroDivisionError m | IndexError m | KeyError m => m
  end.

Inductive result (A : Type) : Type :=
| Ok (a : A)
| Raise (e : exn).
Arguments Ok {A} a.
Arguments Raise {A} e.

#[global] Instance result_ret : MRet result := fun A a => Ok a.

#[global] Instance result_bind : MBind result := fun A B k r =>
  match r with
  | Ok a => k a
  | Raise e => Raise e
  end.

Definition raises {A} (r : result A) : Prop :=
  match r with Ok _ => False | Raise _ => True end.

(** Comparisons of finite floats are decided through the order of [R]. *)
#[global] Instance Rlt_decision (x y : R) : Decision (x < y) := Rlt_dec x y.
#[global] Instance Rle_decision (x y : R) : Decision (x <= y) := Rle_dec x y.
#[global] Instance Req_decision : EqDecision R := Req_dec_T.

(** [x / y] on Python floats. *)
Definition truediv (x y : R) : result R :=
  if decide (y = 0) then Raise (ZeroDivisionError "float division by zero")
  else Ok (x / y).

(** The value of [x ** y] on Python floats, for a positive exponent that
    is not an integer: a float for a non-negative base, a complex number
    for a negative one.  Numbers have no upper bound here: the
    [OverflowError] Python raises when the power leaves the float range is
    not part of the model. *)
Inductive number : Type :=
| Float (x : R)
| Complex (re im : R).

Definition pow (x y : R) : number :=
  if decide (0 < x) then Float (Rpower x y)
  else if decide (x = 0) then Float 0
  else Complex (Rpower (- x) y * cos (y * PI)) (Rpower (- x) y * sin (y * PI)).

(** [d * z] for a float [d]. *)
Definition scale (d : R) (z : number) : number :=
  match z with
  | Float x => Float (d * x)
  | Complex re im => Complex (d * re) (d * im)
  end.

End Py.

(** ** NumPy scalars *)

Module Np.

Import Py.

Inductive float64 : Type :=
| Fin (x : R)
| PInf
| NInf
| NaN.

Definition isfinite (a : float64) : bool :=
  match a with Fin _ => true | _ => false end.

Definition isnan (a : float64) : bool :=
  match a with NaN => true | _ => false end.

(** Infinity with the sign of [x], NaN for [x = 0]. *)
Definition signed_inf (x : R) : float64 :=
  if decide (0 < x) then PInf
  else if decide (x < 0) then NInf
  else NaN.

Definition neg (a : float64) : float64 :=
  match a with
  | Fin x => Fin (- x)
  | PInf => NInf
  | NInf => PInf
  | NaN => NaN
  end.

Definition mul (a b : float64) : float64 :=
  match a, b with
  | NaN, _ | _, NaN => NaN
  | Fin x, Fin y => Fin (x * y)
  | Fin x, PInf | PInf, Fin x => signed_inf x
  | Fin x, NInf | NInf, Fin x => neg (signed_inf x)
  | PInf, PInf | NInf, NInf => PInf
  | PInf, NInf | NInf, PInf => NInf
  end.

(** [a / b]: a warning at most, never an exception.  The one zero of the
    model is read as [+0.0]; for a divisor [-0.0] NumPy returns the
    infinity of the other sign. *)
Definition divide (a b : float64) : float64 :=
  match a, b with
  | NaN, _ | _, NaN => NaN
  | Fin x, Fin y => if decide (y = 0) then signed_inf x else Fin (x / y)
  | Fin _, (PInf | NInf) => Fin 0
  | PInf, Fin y => if decide (y < 0) then NInf else PInf
  | NInf, Fin y => if decide (y < 0) then PInf else NInf
  | (PInf | NInf), (PInf | NInf) => NaN
  end.

Definition absolute (a : float64) : float64 :=
  match a with
  | Fin x => Fin (Rabs x)
  | PInf | NInf => PInf
  | NaN => NaN
  end.

(** [np.log] *)
Definition log (a : float64) : float64 :=
  match a with
  | Fin x =>
      if decide (0 < x) then Fin (ln x)
      else if decide (x = 0) then NInf
      else NaN
  | PInf => PInf
  | NInf | NaN => NaN
  end.

(** [np.sqrt] *)
Definition sqrt (a : float64) : float64 :=
  match a with
  | Fin x => if decide (x < 0) then NaN else Fin (R_sqrt.sqrt x)
  | PInf => PInf
  | NInf | NaN => NaN
  end.

(** [a < b] and [a <= b], false as soon as one side is NaN. *)
Definition ltb (a b : float64) : bool :=
match a, b with
| NaN, _ | _, NaN => false
| Fin x, Fin y => bool_decide (x < y)
| NInf, (Fin _ | PInf) | Fin _, PInf => true
| _, _ => false
end.

Definition le (a b : float64) : Prop :=
  match a, b with
  | NaN, _ | _, NaN => False
  | NInf, _ | _, PInf => True
  | Fin x, Fin y => x <= y
  | _, _ => False
  end.

End Np.

(** ** Sidebar: the theoretical parameters *)

Inductive sistema : Type :=
| Acetona_Ar
| Agua_Ar
| CO2_Agua
| Personalizado (M_A rho_A : R).

(** Molar mass (g/mol) and density (kg/m3) of the selected system. *)
Definition massa_e_densidade (s : sistema) : R * R :=
  match s with
  | Personalizado M_A rho_A => (M_A, rho_A)
  | Acetona_Ar => (58.08, 791.0)
  | Agua_Ar => (18.02, 997.0)
  | CO2_Agua => (44.01, 997.0)
  end.

(** The globals every later function reads. *)
Record sidebar : Type := Sidebar {
  M_A : R;          (* g/mol *)
  rho_A : R;        (* kg/m3 *)
  P : R;            (* atm *)
  T : R;            (* K *)
  D_AB_teorico : R  (* m2/s *)
}.

(** The values the widgets start with. *)
Definition sidebar_inicial : sidebar :=
  {| M_A := fst (massa_e_densidade Acetona_Ar);
     rho_A := snd (massa_e_densidade Acetona_Ar);
     P := 1.0; T := 318.0; D_AB_teorico := 1.09 * 1e-5 |}.

(** The sidebar after the pressure widget is set to [p] atm. *)
Definition com_pressao (p : R) : sidebar :=
  {| M_A := M_A sidebar_inicial; rho_A := rho_A sidebar_inicial;
     P := p; T := T sidebar_inicial;
     D_AB_teorico := D_AB_teorico sidebar_inicial |}.

(** The sidebar of a custom system, the other widgets untouched. *)
Definition com_sistema (s : sistema) : sidebar :=
  {| M_A := fst (massa_e_densidade s); rho_A := snd (massa_e_densidade s);
     P := P sidebar_inicial; T := T sidebar_inicial;
     D_AB_teorico := D_AB_teorico sidebar_inicial |}.

(** ** Fuller temperature correction *)

Definition T_ref_default : R := 273.0.

Definition calcular_D_AB_teorico (T D_AB_ref T_ref : R) : Py.result Py.number :=
  q ← Py.truediv T T_ref;
  Py.Ok (Py.scale D_AB_ref (Py.pow q 1.75)).

(** ** Diffusion model *)

Section Modelo.

Variable sb : sidebar.

Definition R_gas : R := 8.314.       (* J/(mol K) *)
Definition P_A1 : R := 0.66782e5.    (* Pa, acetone vapour pressure at 45 C *)
Definition P_A2 : R := 0.
Definition P_total : R := P sb * 101325.

(** [termo]: the diffusivity is a NumPy scalar, so is the quotient. *)
Definition termo (D_AB : R) : Np.float64 :=
  Np.divide (Np.Fin (2 * M_A sb * D_AB * P_total))
            (Np.Fin (rho_A sb * R_gas * T sb)).

(** [log_term]: the quotient is taken on Python floats, the logarithm
    by NumPy. *)
Definition log_term : Py.result Np.float64 :=
  q ← Py.truediv (P_total - P_A2) (P_total - P_A1);
  Py.Ok (Np.log (Np.Fin q)).

(** [modelo_diffusao(t, D_AB)] at one time value. *)
Definition modelo_diffusao (t D_AB : R) : Py.result Np.float64 :=
  let termo := termo D_AB in
  log_term ← log_term;
  Py.Ok (Np.sqrt (Np.mul (Np.mul termo log_term) (Np.Fin t))).

(** [modelo_diffusao(t, D_AB)] at an array of time values. *)
Definition modelo_diffusao_array (t : list R) (D_AB : R)
  : Py.result (list Np.float64) :=
  let termo := termo D_AB in
  log_term ← log_term;
  Py.Ok (map (fun ti => Np.sqrt (Np.mul (Np.mul termo log_term) (Np.Fin ti))) t).

(** The height written as in the design document, on real numbers:
    [sqrt (term * log_term * t)]. *)
Definition predicted_height (t D : R) : R :=
  let term := (2 * M_A sb * D * P_total) / (rho_A sb * R_gas * T sb) in
  let log_term := ln ((P_total - P_A2) / (P_total - P_A1)) in
  sqrt (term * log_term * t).

(** The coefficient of [D * t] under the square root. *)
Definition k_modelo : R :=
  (2 * M_A sb * P_total) / (rho_A sb * R_gas * T sb)
  * ln ((P_total - P_A2) / (P_total - P_A1)).

(** The parameter combinations the model is meant for. *)
Definition parametros_validos : Prop :=
  0 < M_A sb /\ 0 < rho_A sb /\ 0 < T sb /\ P_A1 < P_total.

End Modelo.

(** ** Curve fit

    [curve_fit] is SciPy's; the script hands it the model, the two columns
    and the starting point [p0 = [1e-5]].  What it minimises over [D_AB] is
    the sum of the squared residuals, written here on exact numbers. *)

Definition p0 : list R := [1e-5].

Definition soma_residuos (sb : sidebar) (tempo altura : list R) (D_AB : R) : R :=
  foldr Rplus 0
    (zip_with (fun t h => (h - predicted_height sb t D_AB) ^ 2) tempo altura).

(** ** Comparison of the fitted and the theoretical coefficient *)

(** [erro_absoluto] and [erro_relativo]: the fitted coefficient comes out of
    a NumPy array, the theoretical one is a Python float. *)
Definition erro_absoluto (D_AB_teorico_ajustado D_AB_exp : R) : Np.float64 :=
  Np.absolute (Np.Fin (D_AB_teorico_ajustado - D_AB_exp)).

Definition erro_relativo (D_AB_teorico_ajustado D_AB_exp : R) : Np.float64 :=
  Np.mul (Np.divide (erro_absoluto D_AB_teorico_ajustado D_AB_exp)
                    (Np.Fin D_AB_teorico_ajustado))
         (Np.Fin 100).

(** The two assignments of the results tab, as one step. *)
Definition comparar (D_AB_teorico_ajustado D_AB_exp : R)
  : Py.result (Np.float64 * Np.float64) :=
  let erro_absoluto := erro_absoluto D_AB_teorico_ajustado D_AB_exp in
  let erro_relativo := erro_relativo D_AB_teorico_ajustado D_AB_exp in
  Py.Ok (erro_absoluto, erro_relativo).

(** ** pandas tables and the Streamlit page

    A table maps a column label to its cells; the script only computes on
    numeric columns, whose cells are finite floats.  Tables are objects: a
    variable holds a reference into the heap, and an assignment to a column
    changes the object every holder of the reference sees. *)

Module Pd.

Import Py.

(** [s.max()] of a column of numbers, NaN for the empty column.  A column
    of other cells, on which the comparison with 1 raises [TypeError], is
    not a table of this model. *)
Definition max (s : list R) : Np.float64 :=
match s with
| [] => Np.NaN
| x :: s' => Np.Fin (foldl Rmax x s')
end.

Definition truediv (s : list R) (c : R) : list R := (fun x => x / c) <$> s.

Definition pow (s : list R) (n : nat) : list R := (fun x => x ^ n) <$> s.

Definition sub (s : list R) (c : R) : list R := (fun x => x - c) <$> s.

(** [s.iloc[i]] *)
Definition iloc (s : list R) (i : nat) : result R :=
match s !! i with
| Some x => Ok x
| None => Raise (IndexError "single positional indexer is out-of-bounds")
end.

End Pd.

Definition loc : Type := positive.

Inductive element : Type :=
| error (body : string).

(** The tables alive in the session and what has been written on the page.
    A Python variable always refers to an object; a reference the heap does
    not hold reads as the table without columns. *)
Record world : Type := World {
  heap : gmap loc (gmap string (list R));
  page : list element
}.

(** Computations that read and write the world and may raise; what was
    written before an exception stays written. *)
Definition St (A : Type) : Type := world -> Py.result A * world.

#[global] Instance St_ret : MRet St := fun A a w => (Py.Ok a, w).

#[global] Instance St_bind : MBind St := fun A B k m w =>
match m w with
| (Py.Ok a, w') => k a w'
| (Py.Raise e, w') => (Py.Raise e, w')
end.

Definition lift {A} (r : Py.result A) : St A := fun w => (r, w).

Definition try_except {A} (body : St A) (handler : Py.exn -> St A) : St A :=
fun w =>
match body w with
| (Py.Raise e, w') => handler e w'
| returned => returned
end.

(** [st.error(body)] *)
Definition st_error (body : string) : St () :=
fun w => (Py.Ok (), {| heap := heap w; page := page w ++ [error body] |}).

(** [df.columns] *)
Definition df_columns (df : loc) : St (gset string) :=
fun w => (Py.Ok (dom (heap w !!! df)), w).

(** [df[c]] *)
Definition df_getitem (df : loc) (c : string) : St (list R) :=
fun w =>
match (heap w !!! df) !! c with
| Some s => (Py.Ok s, w)
| None => (Py.Raise (Py.KeyError ("'" +:+ c +:+ "'")), w)
end.

(** [df[c] = s] *)
Definition df_setitem (df : loc) (c : string) (s : list R) : St () :=
fun w => (Py.Ok (), {| heap := <[df := <[c := s]> (heap w !!! df)]> (heap w);
                       page := page w |}).

Definition processar_dados (df : loc) : St (option loc) :=
try_except
  (columns ← df_columns df;
   if bool_decide ("tempo" ∉ columns) || bool_decide ("altura" ∉ columns) then
     st_error "O arquivo CSV deve conter colunas 'tempo' (s) e 'altura' (m)";;
     mret None
   else
     altura ← df_getitem df "altura";
     (if Np.ltb (Pd.max altura) (Np.Fin 1) then mret ()
      else
        altura ← df_getitem df "altura";
        df_setitem df "altura" (Pd.truediv altura 100));;
     altura ← df_getitem df "altura";
     z0 ← lift (Pd.iloc altura 0);
     altura ← df_getitem df "altura";
     df_setitem df "delta_z2" (Pd.sub (Pd.pow altura 2) (z0 ^ 2));;
     mret (Some df))
  (fun e =>
     st_error ("Erro ao processar dados: " +:+ Py.str e);;
     mret None).

(** The heights the table holds after the unit test. *)
Definition altura_em_metros (hs : list R) : list R :=
  if Np.ltb (Pd.max hs) (Np.Fin 1) then hs else Pd.truediv hs 100.

(** [pd.read_csv] of a file with the two columns, and the world in which
    that table is the only object and nothing is on the page yet. *)
Definition tabela (tempo altura : list R) : gmap string (list R) :=
  <["altura" := altura]> (<["tempo" := tempo]> ∅).

Definition mundo (df : loc) (d : gmap string (list R)) : world :=
  {| heap := {[df := d]}; page := [] |}.

(** ** The import tab and the fit tab

    One run of the script executes the tabs in order; what survives from
    one run to the next is [st.session_state].  Of what the tabs write on
    the page the messages are kept ([st.success], [st.warning],
    [st.error]); tables, plots and metrics only display values and are left
    out, and so is the results tab, which changes nothing.  Reading the
    upload is pandas' and the fit is SciPy's: the parsed upload and
    [curve_fit] are parameters. *)

Module NpArray.

(** [a - b] *)
Definition subtract (a b : Np.float64) : Np.float64 :=
  match a, b with
  | Np.NaN, _ | _, Np.NaN => Np.NaN
  | Np.Fin x, Np.Fin y => Np.Fin (x - y)
  | Np.PInf, Np.PInf | Np.NInf, Np.NInf => Np.NaN
  | Np.PInf, _ | _, Np.NInf => Np.PInf
  | Np.NInf, _ | _, Np.PInf => Np.NInf
  end.

(** [a ** 2] *)
Definition square (a : Np.float64) : Np.float64 := Np.mul a a.

(** [np.linspace(start, stop, num)] between finite ends: [num - 1] equal
    steps, the last point set to [stop]. *)
Definition linspace_fin (start stop : R) (num : nat) : list R :=
  match num with
  | O => []
  | S O => [start]
  | S n => ((fun i => start + INR i * ((stop - start) / INR n)) <$> seq 0 n)
           ++ [stop]
  end.

(** [np.linspace(start, stop, num)] for a finite [start]: with an infinite
    [stop] the step is infinite, so the first point is [0 * inf]. *)
Definition linspace (start : R) (stop : Np.float64) (num : nat)
  : list Np.float64 :=
  match stop with
  | Np.Fin b => Np.Fin <$> linspace_fin start b num
  | Np.NaN => replicate num Np.NaN
  | inf =>
      match num with
      | O => []
      | S O => [Np.NaN]
      | S n => Np.NaN :: replicate (n - 1) inf ++ [inf]
      end
  end.

(** [a[i]] *)
Definition getitem (a : list R) (i : nat) : Py.result R :=
  match a !! i with
  | Some x => Py.Ok x
  | None =>
      Py.Raise (Py.IndexError
                  ("index " +:+ pretty i +:+
                   " is out of bounds for axis 0 with size " +:+
                   pretty (length a)))
  end.

End NpArray.

Section Ajuste_e_graficos.

Variable sb : sidebar.

(** [modelo_diffusao(t, D_AB)] at an array that may hold NaN or [inf]. *)
Definition modelo_diffusao_float64 (t : list Np.float64) (D_AB : R)
  : Py.result (list Np.float64) :=
  let termo := termo sb D_AB in
  log_term ← log_term sb;
  Py.Ok (map (fun ti => Np.sqrt (Np.mul (Np.mul termo log_term) ti)) t).

(** [t_range] and [h_ajustado], the fitted curve of the first plot. *)
Definition t_range (tempo : list R) : list Np.float64 :=
  NpArray.linspace 0 (Pd.max tempo) 100.

Definition h_ajustado (tempo : list R) (D_AB_exp : R)
  : Py.result (list Np.float64) :=
  modelo_diffusao_float64 (t_range tempo) D_AB_exp.

End Ajuste_e_graficos.

Inductive message : Type :=
| success (body : string)
| warning (body : string)
| failure (e : element).

(** [st.session_state]: a key is either absent or holds a value. *)
Record session_state : Type := SessionState {
  df_exp : option loc;
  D_AB_exp : option R
}.

Record app : Type := App {
  objects : gmap loc (gmap string (list R));
  screen : list message;
  session : session_state
}.

Definition Ap (A : Type) : Type := app -> Py.result A * app.

#[global] Instance Ap_ret : MRet Ap := fun A a s => (Py.Ok a, s).

#[global] Instance Ap_bind : MBind Ap := fun A B k m s =>
  match m s with
  | (Py.Ok a, s') => k a s'
  | (Py.Raise e, s') => (Py.Raise e, s')
  end.

(** A computation on the tables runs on the tables of the application;
    the errors it writes go to the screen in the order written. *)
Definition run {A} (m : St A) : Ap A :=
  fun s =>
    let (r, w) := m {| heap := objects s; page := [] |} in
    (r, {| objects := heap w;
           screen := screen s ++ (failure <$> page w);
           session := session s |}).

Definition raise_or_return {A} (r : Py.result A) : Ap A := fun s => (r, s).

Definition try_except_Ap {A} (body : Ap A) (handler : Py.exn -> Ap A) : Ap A :=
  fun s =>
    match body s with
    | (Py.Raise e, s') => handler e s'
    | returned => returned
    end.

Definition write_message (m : message) : Ap () :=
  fun s => (Py.Ok (), {| objects := objects s; screen := screen s ++ [m];
                         session := session s |}).

Definition get_session : Ap session_state := fun s => (Py.Ok (session s), s).

Definition set_session (st : session_state) : Ap () :=
  fun s => (Py.Ok (), {| objects := objects s; screen := screen s;
                         session := st |}).

(** [pd.read_csv(uploaded_file)]: the parsed table becomes a new object,
    or the parser's exception is raised. *)
Definition read_csv (uploaded_file : Py.result (gmap string (list R))) : Ap loc :=
  fun s =>
    match uploaded_file with
    | Py.Ok d =>
        let df := fresh (dom (objects s)) in
        (Py.Ok df, {| objects := <[df := d]> (objects s); screen := screen s;
                      session := session s |})
    | Py.Raise e => (Py.Raise e, s)
    end.

(** The body of the import tab; [None] is no file in the uploader.  The
    columns of a pandas table have one length, so plotting one against the
    other does not fail: of the plot only the two column reads are kept. *)
Definition tab1 (uploaded_file : option (Py.result (gmap string (list R))))
  : Ap () :=
  match uploaded_file with
  | None => mret ()
  | Some uploaded_file =>
      try_except_Ap
        (df ← read_csv uploaded_file;
         write_message (success "Arquivo carregado com sucesso!");;
         processed ← run (processar_dados df);
         match processed with
         | Some df =>
             _ ← run (df_getitem df "tempo");
             _ ← run (df_getitem df "altura");
             st ← get_session;
             set_session {| df_exp := Some df; D_AB_exp := D_AB_exp st |}
         | None => mret ()
         end)
        (fun e =>
           write_message
             (failure (error ("Erro ao ler o arquivo: " +:+ Py.str e))))
  end.

Section Tab2.

Variable sb : sidebar.

(** [z2_teorico], the theoretical line of the second plot. *)
Definition z2_teorico (df : loc) (D_AB_exp : R) : Ap (list Np.float64) :=
  tempo ← run (df_getitem df "tempo");
  m ← raise_or_return (modelo_diffusao_array sb tempo D_AB_exp);
  altura ← run (df_getitem df "altura");
  z0 ← raise_or_return (Pd.iloc altura 0);
  mret (map (fun h => NpArray.subtract (NpArray.square h) (Np.Fin (z0 ^ 2))) m).

(** [scipy.optimize.curve_fit(f, xdata, ydata, p0)]: the optimal
    parameters, finite numbers, and their covariance, or an exception, of
    which the tab reads the message only. *)
Variable curve_fit :
  (list R -> R -> Py.result (list Np.float64)) -> list R -> list R -> list R ->
  Py.result (list R * list (list Np.float64)).

(** The body of the fit tab. *)
Definition tab2 : Ap () :=
  st ← get_session;
  match df_exp st with
  | None =>
      write_message
        (warning "Por favor, importe dados experimentais na aba 'Importar Dados'.")
  | Some df =>
      try_except_Ap
        (tempo ← run (df_getitem df "tempo");
         altura ← run (df_getitem df "altura");
         fit ← raise_or_return
                 (curve_fit (modelo_diffusao_array sb) tempo altura p0);
         D ← raise_or_return (NpArray.getitem (fst fit) 0);
         st ← get_session;
         set_session {| df_exp := df_exp st; D_AB_exp := Some D |};;
         tempo ← run (df_getitem df "tempo");
         _ ← raise_or_return (h_ajustado sb tempo D);
         _ ← run (df_getitem df "tempo");
         _ ← run (df_getitem df "altura");
         _ ← run (df_getitem df "tempo");
         _ ← run (df_getitem df "delta_z2");
         _ ← z2_teorico df D;
         _ ← run (df_getitem df "tempo");
         mret ())
        (fun e =>
           write_message
             (failure (error ("Erro no ajuste de curva: " +:+ Py.str e))))
  end.

End Tab2.

(** What the session is meant to hold: a reference to a table that went
    through [processar_dados]. *)
Definition processed (d : gmap string (list R)) : Prop :=
  exists tempo altura z0,
    d !! "tempo" = Some tempo /\ d !! "altura" = Some altura /\
    altura !! 0%nat = Some z0 /\
    d !! "delta_z2" = Some (Pd.sub (Pd.pow altura 2) (z0 ^ 2)).

Definition session_ok (s : app) : Prop :=
  forall df, df_exp (session s) = Some df ->
             exists d, objects s !! df = Some d /\ processed d.

(** An upload the import tab does not take: unreadable, lacking one of the
    two columns, or without rows; no upload at all counts too. *)
Definition rejected (up : option (Py.result (gmap string (list R)))) : Prop :=
  match up with
  | None | Some (Py.Raise _) => True
  | Some (Py.Ok d) =>
      d !! "tempo" = None \/ d !! "altura" = None \/ d !! "altura" = Some []
  end.

(** A step of a tab that touches neither the tables nor the reference the
    session holds. *)
Definition keeps_tables {A} (m : Ap A) : Prop :=
  forall s r s', m s = (r, s') ->
                 objects s' = objects s /\
                 df_exp (session s') = df_exp (session s).

(** A session after one accepted upload in metres, and the same with a
    coefficient from an earlier fit. *)
Definition app_exemplo (D : option R) : app :=
  {| objects :=
       {[1%positive :=
           <["delta_z2" := Pd.sub (Pd.pow [0.05; 0.052] 2) (0.05 ^ 2)]>
             (tabela [0; 60] [0.05; 0.052])]};
     screen := [];
     session := {| df_exp := Some 1%positive; D_AB_exp := D |} |}.

(** * Properties *)

(** ** Arithmetic helpers *)

Lemma decide_true_R {A} (P : Prop) `{Decision P} (x y : A) :
  P -> (if decide P then x else y) = x.
Proof. intros HP. destruct (decide P) as [_ | n]; [reflexivity | contradiction]. Qed.

Lemma decide_false_R {A} (P : Prop) `{Decision P} (x y : A) :
  ~ P -> (if decide P then x else y) = y.
Proof. intros HP. destruct (decide P) as [p | _]; [contradiction | reflexivity]. Qed.

Lemma Rdiv_neg_pos_neg (x y : R) : 0 < x -> y < 0 -> x / y < 0.
Proof.
  intros Hx Hy. unfold Rdiv.
  pose proof (Rinv_lt_0_compat y Hy) as Hi.
  rewrite <- (Rmult_0_r x). apply Rmult_lt_compat_l; assumption.
Qed.

Lemma Rdiv_gt_1 (x y : R) : 0 < y -> y < x -> 1 < x / y.
Proof.
  intros Hy Hxy. unfold Rdiv.
  pose proof (Rinv_0_lt_compat y Hy) as Hi.
  replace 1 with (y * / y) by (apply Rinv_r; lra).
  apply Rmult_lt_compat_r; assumption.
Qed.

Lemma ln_pos (x : R) : 1 < x -> 0 < ln x.
Proof. intros Hx. rewrite <- ln_1. apply ln_increasing; lra. Qed.

Lemma ln_neg (x : R) : 0 < x -> x < 1 -> ln x < 0.
Proof. intros H0 H1. rewrite <- ln_1. apply ln_increasing; lra. Qed.

(** Goals on the numbers of a concrete sidebar: expose them, then [lra]. *)
Ltac sidebar_lra :=
  cbv [parametros_validos P_total P_A1 P_A2 R_gas com_pressao com_sistema
       sidebar_inicial massa_e_densidade M_A rho_A P T fst snd];
  repeat split; lra.

Lemma P_A1_pos : 0 < P_A1.
Proof. unfold P_A1. lra. Qed.

Lemma R_gas_pos : 0 < R_gas.
Proof. unfold R_gas. lra. Qed.

(** ** The diffusion model on valid parameters *)

Section ModeloValido.

Variable sb : sidebar.
Hypothesis valid : parametros_validos sb.

Lemma termo_valid (D : R) :
  termo sb D =
  Np.Fin ((2 * M_A sb * D * P_total sb) / (rho_A sb * R_gas * T sb)).
Proof.
  destruct valid as (HM & Hrho & HT & HP).
  unfold termo. cbn [Np.divide].
  apply decide_false_R.
  pose proof R_gas_pos.
  apply Rgt_not_eq. apply Rmult_gt_0_compat; [apply Rmult_gt_0_compat |]; lra.
Qed.

Lemma log_term_valid :
  log_term sb = Py.Ok (Np.Fin (ln ((P_total sb - P_A2) / (P_total sb - P_A1)))).
Proof.
  destruct valid as (HM & Hrho & HT & HP).
  pose proof P_A1_pos as HA.
  unfold log_term, Py.truediv.
  rewrite decide_false_R by lra. cbn.
  rewrite decide_true_R; [reflexivity |].
  apply Rlt_trans with 1; [lra |].
  apply Rdiv_gt_1; unfold P_A2; lra.
Qed.

Lemma log_term_valid_pos : 0 < ln ((P_total sb - P_A2) / (P_total sb - P_A1)).
Proof.
  destruct valid as (HM & Hrho & HT & HP).
  pose proof P_A1_pos as HA.
  apply ln_pos, Rdiv_gt_1; unfold P_A2; lra.
Qed.

Lemma k_modelo_pos : 0 < k_modelo sb.
Proof.
  pose proof log_term_valid_pos as Hl.
  destruct valid as (HM & Hrho & HT & HP).
  pose proof P_A1_pos as HA. pose proof R_gas_pos as HR.
  unfold k_modelo. apply Rmult_lt_0_compat; [| assumption].
  apply Rdiv_lt_0_compat.
  - apply Rmult_lt_0_compat; [lra | lra].
  - apply Rmult_lt_0_compat; [apply Rmult_lt_0_compat |]; lra.
Qed.

Lemma radicand_k (t D : R) :
  (2 * M_A sb * D * P_total sb) / (rho_A sb * R_gas * T sb)
  * ln ((P_total sb - P_A2) / (P_total sb - P_A1)) * t
  = k_modelo sb * (D * t).
Proof. unfold k_modelo, Rdiv. ring. Qed.

Lemma predicted_height_k (t D : R) :
  predicted_height sb t D = sqrt (k_modelo sb * (D * t)).
Proof. unfold predicted_height. cbv zeta. now rewrite radicand_k. Qed.

(** On valid parameters the script evaluates the documented formula. *)
Lemma modelo_diffusao_valid (t D : R) :
  0 <= t -> 0 <= D ->
  modelo_diffusao sb t D = Py.Ok (Np.Fin (predicted_height sb t D)).
Proof.
  intros Ht HD.
  unfold modelo_diffusao. rewrite termo_valid, log_term_valid. cbn.
  rewrite decide_false_R; [reflexivity |].
  rewrite radicand_k. pose proof k_modelo_pos as Hk.
  apply Rle_not_lt. apply Rmult_le_pos; [lra |]. apply Rmult_le_pos; assumption.
Qed.

Lemma modelo_diffusao_array_valid (ts : list R) (D : R) :
  Forall (fun t => 0 <= t) ts -> 0 <= D ->
  modelo_diffusao_array sb ts D
  = Py.Ok ((fun t => Np.Fin (predicted_height sb t D)) <$> ts).
Proof.
  intros Hts HD.
  unfold modelo_diffusao_array. rewrite termo_valid, log_term_valid. cbn.
  f_equal. apply Forall_fmap_ext_1. 
  eapply Forall_impl; [exact Hts |]. intros t Ht. cbn beta.
  rewrite decide_false_R; [reflexivity |].
  rewrite radicand_k. pose proof k_modelo_pos as Hk.
  apply Rle_not_lt. apply Rmult_le_pos; [lra |]. apply Rmult_le_pos; assumption.
Qed.

Lemma predicted_height_nonneg (t D : R) : 0 <= predicted_height sb t D.
Proof. rewrite predicted_height_k. apply sqrt_pos. Qed.

Lemma predicted_height_mono (t t' D D' : R) :
  0 <= t -> 0 <= D -> t <= t' -> D <= D' ->
  predicted_height sb t D <= predicted_height sb t' D'.
Proof.
  intros Ht HD Htt HDD. rewrite !predicted_height_k.
  pose proof k_modelo_pos as Hk.
  apply sqrt_le_1_alt. apply Rmult_le_compat_l; [lra |].
  apply Rmult_le_compat; lra.
Qed.

End ModeloValido.

Lemma sidebar_inicial_valid : parametros_validos sidebar_inicial.
Proof.
  sidebar_lra.
Qed.

(** C4. On valid physical parameters, for every time [t >= 0] and
    diffusivity [D > 0] the model returns a finite height that is
    non-negative, does not decrease when [t] grows with [D] fixed, and does
    not decrease when [D] grows with [t] fixed. *)
Theorem modelo_diffusao_nonneg_monotone (sb : sidebar) (t D : R) :
  parametros_validos sb -> 0 <= t -> 0 < D ->
  (exists h, modelo_diffusao sb t D = Py.Ok (Np.Fin h) /\ 0 <= h) /\
  (forall t', t <= t' ->
     exists h h', modelo_diffusao sb t D = Py.Ok h /\
                  modelo_diffusao sb t' D = Py.Ok h' /\ Np.le h h') /\
  (forall D', D <= D' ->
     exists h h', modelo_diffusao sb t D = Py.Ok h /\
                  modelo_diffusao sb t D' = Py.Ok h' /\ Np.le h h').
Proof.
  intros Hv Ht HD. split; [| split].
  - exists (predicted_height sb t D). split.
    + apply modelo_diffusao_valid; [assumption | lra | lra].
    + apply predicted_height_nonneg.
  - intros t' Htt.
    exists (Np.Fin (predicted_height sb t D)), (Np.Fin (predicted_height sb t' D)).
    rewrite !modelo_diffusao_valid by (assumption || lra).
    repeat split. cbn. apply predicted_height_mono; (assumption || lra).
  - intros D' HDD.
    exists (Np.Fin (predicted_height sb t D)), (Np.Fin (predicted_height sb t D')).
    rewrite !modelo_diffusao_valid by (assumption || lra).
    repeat split. cbn. apply predicted_height_mono; (assumption || lra).
Qed.

Lemma modelo_diffusao_nonneg_monotone_inicial :
  (exists h, modelo_diffusao sidebar_inicial 60 1e-5 = Py.Ok (Np.Fin h) /\ 0 <= h) /\
  (forall t', 60 <= t' ->
     exists h h', modelo_diffusao sidebar_inicial 60 1e-5 = Py.Ok h /\
                  modelo_diffusao sidebar_inicial t' 1e-5 = Py.Ok h' /\ Np.le h h') /\
  (forall D', 1e-5 <= D' ->
     exists h h', modelo_diffusao sidebar_inicial 60 1e-5 = Py.Ok h /\
                  modelo_diffusao sidebar_inicial 60 D' = Py.Ok h' /\ Np.le h h').
Proof.
  apply (modelo_diffusao_nonneg_monotone sidebar_inicial 60 1e-5).
  - sidebar_lra.
  - lra.
  - lra.
Defined.

(** C9. On valid physical parameters and for every diffusivity [D > 0] the
    model at [t = 0] returns exactly 0. *)
Theorem modelo_diffusao_t0 (sb : sidebar) (D : R) :
  parametros_validos sb -> 0 < D ->
  modelo_diffusao sb 0 D = Py.Ok (Np.Fin 0).
Proof.
  intros Hv HD.
  rewrite modelo_diffusao_valid by (assumption || lra).
  rewrite predicted_height_k by assumption.
  now rewrite Rmult_0_r, Rmult_0_r, sqrt_0.
Qed.

Lemma modelo_diffusao_t0_inicial :
  modelo_diffusao sidebar_inicial 0 1e-5 = Py.Ok (Np.Fin 0).
Proof.
  apply (modelo_diffusao_t0 sidebar_inicial 1e-5).
  - sidebar_lra.
  - lra.
Defined.

(** ** The diffusion model outside its domain *)

Lemma log_term_div_zero (sb : sidebar) :
  P_total sb - P_A1 = 0 ->
  log_term sb = Py.Raise (Py.ZeroDivisionError "float division by zero").
Proof.
  intros H0. unfold log_term, Py.truediv.
  now rewrite decide_true_R by assumption.
Qed.

Lemma log_term_nan (sb : sidebar) :
  0 < P_total sb -> P_total sb - P_A1 < 0 -> log_term sb = Py.Ok Np.NaN.
Proof.
  intros Hpos Hneg. unfold log_term, Py.truediv.
  rewrite decide_false_R by lra. cbn.
  assert ((P_total sb - P_A2) / (P_total sb - P_A1) < 0) as Hq
    by (apply Rdiv_neg_pos_neg; unfold P_A2; lra).
  rewrite decide_false_R by lra.
  now rewrite decide_false_R by lra.
Qed.

Lemma log_term_ninf (sb : sidebar) :
  P_total sb = 0 -> log_term sb = Py.Ok Np.NInf.
Proof.
  intros H0. pose proof P_A1_pos as HA. unfold log_term, Py.truediv.
  rewrite decide_false_R by lra. cbn.
  assert ((P_total sb - P_A2) / (P_total sb - P_A1) = 0) as ->
    by (rewrite H0; unfold P_A2, Rdiv; ring).
  rewrite decide_false_R by lra.
  now rewrite decide_true_R by reflexivity.
Qed.

Lemma mul_nan_l (a : Np.float64) : Np.mul Np.NaN a = Np.NaN.
Proof. now destruct a. Qed.

Lemma mul_nan_r (a : Np.float64) : Np.mul a Np.NaN = Np.NaN.
Proof. now destruct a. Qed.

Lemma termo_P_zero (sb : sidebar) (D : R) :
  P_total sb = 0 -> termo sb D = Np.Fin 0 \/ termo sb D = Np.NaN.
Proof.
  intros H0. unfold termo. rewrite H0, Rmult_0_r. cbn.
  destruct (decide (rho_A sb * R_gas * T sb = 0)) as [Hz | Hz].
  - right. unfold Np.signed_inf.
    rewrite decide_false_R by lra. now rewrite decide_false_R by lra.
  - left. f_equal. unfold Rdiv. ring.
Qed.

(** C2 (amended). The model raises no domain error of its own.  When the
    total pressure equals the vapour pressure the Python division raises
    [ZeroDivisionError]; when the total pressure is non-negative and below
    the vapour pressure, and whenever the product under the square root is
    a negative number, the evaluation returns NaN without raising, for
    every time and every diffusivity. *)
Theorem modelo_diffusao_fora_do_dominio (sb : sidebar) (t D : R) :
  (P_total sb - P_A1 = 0 ->
     exists msg, modelo_diffusao sb t D = Py.Raise (Py.ZeroDivisionError msg)) /\
  (0 <= P_total sb -> P_total sb - P_A1 < 0 ->
     modelo_diffusao sb t D = Py.Ok Np.NaN) /\
  (forall l x, log_term sb = Py.Ok l ->
     Np.mul (Np.mul (termo sb D) l) (Np.Fin t) = Np.Fin x -> x < 0 ->
     modelo_diffusao sb t D = Py.Ok Np.NaN).
Proof.
  split; [| split].
  - intros H0. eexists. unfold modelo_diffusao. now rewrite log_term_div_zero.
  - intros Hge Hlt. unfold modelo_diffusao.
    destruct (decide (P_total sb = 0)) as [Hz | Hz].
    + rewrite log_term_ninf by assumption. cbv zeta.
      destruct (termo_P_zero sb D Hz) as [-> | ->]; cbn; [| reflexivity].
      unfold Np.signed_inf.
      rewrite decide_false_R by lra. now rewrite decide_false_R by lra.
    + rewrite log_term_nan by lra. cbn. now rewrite mul_nan_r.
  - intros l x Hl Hx Hneg. unfold modelo_diffusao. rewrite Hl. cbv zeta.
    change (Py.Ok (Np.sqrt (Np.mul (Np.mul (termo sb D) l) (Np.Fin t)))
            = Py.Ok Np.NaN).
    rewrite Hx. cbn. now rewrite decide_true_R by assumption.
Qed.

Lemma log_term_fin (sb : sidebar) :
  0 < (P_total sb - P_A2) / (P_total sb - P_A1) ->
  P_total sb - P_A1 <> 0 ->
  log_term sb = Py.Ok (Np.Fin (ln ((P_total sb - P_A2) / (P_total sb - P_A1)))).
Proof.
  intros Hq Hne. unfold log_term, Py.truediv.
  rewrite decide_false_R by assumption. cbn.
  now rewrite decide_true_R by assumption.
Qed.

Lemma termo_fin (sb : sidebar) (D : R) :
  rho_A sb * R_gas * T sb <> 0 ->
  termo sb D
  = Np.Fin ((2 * M_A sb * D * P_total sb) / (rho_A sb * R_gas * T sb)).
Proof. intros Hne. unfold termo. cbn. now rewrite decide_false_R by assumption. Qed.

Lemma Rdiv_neg_neg (x y : R) : x < 0 -> y < x -> 0 < x / y < 1.
Proof.
  intros Hx Hy. assert (y < 0) as Hy0 by lra.
  pose proof (Rinv_lt_0_compat y Hy0) as Hi.
  assert (y * / y = 1) as H1 by (apply Rinv_r; lra).
  unfold Rdiv. split; nra.
Qed.

(** A negative total pressure passes both sign tests: the logarithm and the
    coefficient are negative, their product is not, and a finite height
    comes back. *)
Lemma modelo_diffusao_pressao_negativa (sb : sidebar) (t D : R) :
  0 < M_A sb -> 0 < rho_A sb -> 0 < T sb -> P_total sb < 0 ->
  0 <= t -> 0 <= D ->
  modelo_diffusao sb t D = Py.Ok (Np.Fin (predicted_height sb t D)).
Proof.
  intros HM Hrho HT HP Ht HD.
  pose proof P_A1_pos as HA. pose proof R_gas_pos as HR.
  assert (0 < rho_A sb * R_gas * T sb) as Hden
    by (apply Rmult_lt_0_compat; [apply Rmult_lt_0_compat |]; lra).
  destruct (Rdiv_neg_neg (P_total sb - P_A2) (P_total sb - P_A1)) as [Hq0 Hq1];
    [unfold P_A2; lra | unfold P_A2; lra |].
  unfold modelo_diffusao.
  rewrite log_term_fin by (assumption || lra).
  rewrite termo_fin by lra. cbn.
  rewrite decide_false_R; [reflexivity |].
  pose proof (ln_neg _ Hq0 Hq1) as Hln.
  pose proof (Rinv_0_lt_compat _ Hden) as Hi.
  apply Rle_not_lt. apply Rmult_le_pos; [| assumption].
  assert (0 <= 2 * M_A sb * D) as HMD
    by (apply Rmult_le_pos; [lra | assumption]).
  set (l := ln ((P_total sb - P_A2) / (P_total sb - P_A1))) in *.
  unfold Rdiv.
  set (a := 2 * M_A sb * D) in *.
  set (i := / (rho_A sb * R_gas * T sb)) in *.
  replace (a * P_total sb * i * l) with ((a * i) * (- P_total sb * - l)) by ring.
  apply Rmult_le_pos; [apply Rmult_le_pos; lra |].
  apply Rmult_le_pos; lra.
Qed.

Lemma modelo_diffusao_menos_1_atm :
  P_total (com_pressao (-1)) - P_A1 <= 0 /\
  exists h, modelo_diffusao (com_pressao (-1)) 60 1e-5 = Py.Ok (Np.Fin h).
Proof.
  split.
  - sidebar_lra.
  - eexists. apply modelo_diffusao_pressao_negativa;
      sidebar_lra.
Qed.

Lemma modelo_diffusao_fora_do_dominio_casos :
  (exists msg, modelo_diffusao (com_pressao (66782 / 101325)) 60 1e-5
               = Py.Raise (Py.ZeroDivisionError msg)) /\
  modelo_diffusao (com_pressao 0.5) 60 1e-5 = Py.Ok Np.NaN /\
  modelo_diffusao (com_sistema (Personalizado 58.08 (-791.0))) 60 1e-5
  = Py.Ok Np.NaN.
Proof.
  split; [| split].
  - apply (proj1 (modelo_diffusao_fora_do_dominio
                    (com_pressao (66782 / 101325)) 60 1e-5)).
    sidebar_lra.
  - apply (proj1 (proj2 (modelo_diffusao_fora_do_dominio
                           (com_pressao 0.5) 60 1e-5)));
      sidebar_lra.
  - set (sb := com_sistema (Personalizado 58.08 (-791.0))).
    assert (P_total sb = 101325) as HP
      by (cbv [sb P_total com_sistema sidebar_inicial P]; lra).
    assert (1 < (P_total sb - P_A2) / (P_total sb - P_A1)) as Hq
      by (apply Rdiv_gt_1; rewrite HP; unfold P_A1, P_A2; lra).
    apply (proj2 (proj2 (modelo_diffusao_fora_do_dominio sb 60 1e-5))
             (Np.Fin (ln ((P_total sb - P_A2) / (P_total sb - P_A1))))
             ((2 * M_A sb * 1e-5 * P_total sb) / (rho_A sb * R_gas * T sb)
              * ln ((P_total sb - P_A2) / (P_total sb - P_A1)) * 60)).
    + apply log_term_fin; [lra |]. rewrite HP. unfold P_A1. lra.
    + rewrite termo_fin; [reflexivity |].
      cbv [sb com_sistema sidebar_inicial massa_e_densidade rho_A T R_gas
           fst snd]. lra.
    + pose proof (ln_pos _ Hq) as Hln.
      assert ((2 * M_A sb * 1e-5 * P_total sb) / (rho_A sb * R_gas * T sb) < 0)
        as Hneg.
      { apply Rdiv_neg_pos_neg; rewrite ?HP;
          cbv [sb com_sistema sidebar_inicial massa_e_densidade M_A rho_A T
               R_gas fst snd]; lra. }
      nra.
Defined.

(** C2 (as stated) fails: at half an atmosphere the total pressure is below
    the vapour pressure, yet no error is raised; the model returns NaN. *)
Lemma modelo_diffusao_sem_erro :
  0 <= 60 /\ 0 < 1e-5 /\
  P_total (com_pressao 0.5) - P_A1 <= 0 /\
  modelo_diffusao (com_pressao 0.5) 60 1e-5 = Py.Ok Np.NaN /\
  ~ Py.raises (modelo_diffusao (com_pressao 0.5) 60 1e-5).
Proof.
  assert (modelo_diffusao (com_pressao 0.5) 60 1e-5 = Py.Ok Np.NaN) as E.
  { unfold modelo_diffusao. rewrite log_term_nan.
    - cbv zeta. cbn. now rewrite mul_nan_r.
    - sidebar_lra.
    - sidebar_lra. }
  repeat split; try lra.
  - sidebar_lra.
  - exact E.
  - rewrite E. cbn. tauto.
Qed.

(** ** Comparison of the two coefficients *)

Lemma erro_relativo_nonzero (Dt De : R) :
  Dt <> 0 -> erro_relativo Dt De = Np.Fin (Rabs (Dt - De) / Dt * 100).
Proof.
  intros Hne. unfold erro_relativo, erro_absoluto. cbn.
  now rewrite decide_false_R by assumption.
Qed.

Lemma erro_relativo_zero (De : R) :
  erro_relativo 0 De = if decide (De = 0) then Np.NaN else Np.PInf.
Proof.
  unfold erro_relativo, erro_absoluto. cbn.
  rewrite decide_true_R by reflexivity.
  unfold Np.signed_inf.
  destruct (decide (De = 0)) as [-> | Hne].
  - rewrite Rminus_diag, Rabs_R0.
    rewrite decide_false_R by lra. now rewrite decide_false_R by lra.
  - assert (0 < Rabs (0 - De)) as Hpos by (apply Rabs_pos_lt; lra).
    rewrite decide_true_R by assumption. cbn. unfold Np.signed_inf.
    now rewrite decide_true_R by lra.
Qed.

(** C5 (amended). The comparison never raises.  The absolute error is
    [|D_teo - D_exp|]; for a non-zero theoretical coefficient the relative
    error is [absolute / D_teo * 100]; for a zero theoretical coefficient a
    result is still produced and its relative error is not finite: infinite
    when the experimental coefficient is non-zero, NaN when it is zero. *)
Theorem comparar_correct (Dt De : R) :
  exists ea er,
    comparar Dt De = Py.Ok (ea, er) /\
    ea = Np.Fin (Rabs (Dt - De)) /\
    (Dt <> 0 -> er = Np.Fin (Rabs (Dt - De) / Dt * 100)) /\
    (Dt = 0 -> er = if decide (De = 0) then Np.NaN else Np.PInf).
Proof.
  exists (erro_absoluto Dt De), (erro_relativo Dt De).
  repeat split.
  - apply erro_relativo_nonzero.
  - intros ->. apply erro_relativo_zero.
Qed.

Lemma comparar_correct_casos :
  (exists ea er, comparar 2 1 = Py.Ok (ea, er) /\
                 ea = Np.Fin (Rabs (2 - 1)) /\
                 er = Np.Fin (Rabs (2 - 1) / 2 * 100)) /\
  (exists ea er, comparar 0 1 = Py.Ok (ea, er) /\ er = Np.PInf).
Proof.
  split.
  - destruct (comparar_correct 2 1) as (ea & er & E & Ha & Hn & _).
    exists ea, er. repeat split; [exact E | exact Ha | apply Hn; lra].
  - destruct (comparar_correct 0 1) as (ea & er & E & _ & _ & Hz).
    exists ea, er. split; [exact E |].
    rewrite (Hz eq_refl). apply decide_false_R. lra.
Defined.

(** C5 (as stated) fails: with a zero theoretical coefficient the comparison
    raises nothing and produces a result, whose relative error is [inf]. *)
Lemma comparar_zero_sem_erro :
  comparar 0 1e-5 = Py.Ok (Np.Fin 1e-5, Np.PInf) /\
  ~ Py.raises (comparar 0 1e-5).
Proof.
  assert (comparar 0 1e-5 = Py.Ok (Np.Fin 1e-5, Np.PInf)) as E.
  { unfold comparar. cbv zeta. rewrite erro_relativo_zero.
    rewrite decide_false_R by lra.
    unfold erro_absoluto, Np.absolute. do 3 f_equal.
    rewrite Rabs_left; lra. }
  split; [exact E |]. rewrite E. cbn. tauto.
Qed.

(** ** Temperature correction *)

Lemma Rpower_1_l (y : R) : Rpower 1 y = 1.
Proof. unfold Rpower. now rewrite ln_1, Rmult_0_r, exp_0. Qed.

(** C6. For every reference diffusivity and every positive temperature
    and reference temperature the correction returns
    [D_ref * (T / T_ref) ^ 1.75]; the default reference temperature is
    273.0 K, and at that temperature the correction returns [D_ref]
    itself. *)
Theorem calcular_D_AB_teorico_correct (T D_AB_ref T_ref : R) :
  0 < T -> 0 < T_ref ->
  calcular_D_AB_teorico T D_AB_ref T_ref
  = Py.Ok (Py.Float (D_AB_ref * Rpower (T / T_ref) 1.75)) /\
  T_ref_default = 273.0 /\
  calcular_D_AB_teorico 273.0 D_AB_ref T_ref_default = Py.Ok (Py.Float D_AB_ref).
Proof.
  intros HT HTr. split; [| split].
  - unfold calcular_D_AB_teorico, Py.truediv.
    rewrite decide_false_R by lra. cbn. unfold Py.pow.
    rewrite decide_true_R; [reflexivity |].
    apply Rdiv_lt_0_compat; assumption.
  - reflexivity.
  - unfold calcular_D_AB_teorico, Py.truediv, T_ref_default.
    rewrite decide_false_R by lra. cbn. unfold Py.pow.
    replace (273.0 / 273.0) with 1 by lra.
    rewrite decide_true_R by lra. cbn.
    now rewrite Rpower_1_l, Rmult_1_r.
Qed.

Lemma calcular_D_AB_teorico_318 :
  calcular_D_AB_teorico 318.0 1.09e-5 273.0
  = Py.Ok (Py.Float (1.09e-5 * Rpower (318.0 / 273.0) 1.75)) /\
  T_ref_default = 273.0 /\
  calcular_D_AB_teorico 273.0 1.09e-5 T_ref_default = Py.Ok (Py.Float 1.09e-5).
Proof.
  apply (calcular_D_AB_teorico_correct 318.0 1.09e-5 273.0); lra.
Defined.

(** ** Data preparation *)

Lemma df_getitem_Some (df : loc) (c : string) (s : list R) (w : world) :
  (heap w !!! df) !! c = Some s -> df_getitem df c w = (Py.Ok s, w).
Proof. intros E. unfold df_getitem. now rewrite E. Qed.

Lemma bind_Ok {A B} (m : St A) (k : A -> St B) (w w' : world) (a : A) :
  m w = (Py.Ok a, w') -> (m ≫= k) w = k a w'.
Proof. intros E. unfold mbind, St_bind. now rewrite E. Qed.

Lemma bind_Raise {A B} (m : St A) (k : A -> St B) (w w' : world) (e : Py.exn) :
  m w = (Py.Raise e, w') -> (m ≫= k) w = (Py.Raise e, w').
Proof. intros E. unfold mbind, St_bind. now rewrite E. Qed.


Lemma processar_dados_colunas_ausentes (df : loc) (w : world) :
  "tempo" ∉ dom (heap w !!! df) \/ "altura" ∉ dom (heap w !!! df) ->
  processar_dados df w
  = (Py.Ok None,
     {| heap := heap w;
        page := page w ++
          [error "O arquivo CSV deve conter colunas 'tempo' (s) e 'altura' (m)"] |}).
Proof.
  intros Hmiss. unfold processar_dados, try_except.
  rewrite (bind_Ok _ _ w w (dom (heap w !!! df))) by reflexivity.
  assert (bool_decide ("tempo" ∉ dom (heap w !!! df))
          || bool_decide ("altura" ∉ dom (heap w !!! df)) = true) as ->.
  { apply orb_true_iff. destruct Hmiss as [H | H]; [left | right];
      now apply bool_decide_eq_true. }
  reflexivity.
Qed.

Lemma processar_dados_colunas_presentes
    (df : loc) (w : world) (d : gmap string (list R)) (hs : list R) :
  heap w !! df = Some d -> is_Some (d !! "tempo") -> d !! "altura" = Some hs ->
  processar_dados df w
  = match altura_em_metros hs !! 0%nat with
    | Some z0 =>
        (Py.Ok (Some df),
         {| heap := <[df := <["delta_z2" :=
                                Pd.sub (Pd.pow (altura_em_metros hs) 2) (z0 ^ 2)]>
                              (<["altura" := altura_em_metros hs]> d)]> (heap w);
            page := page w |})
    | None =>
        (Py.Ok None,
         {| heap := <[df := <["altura" := altura_em_metros hs]> d]> (heap w);
            page := page w ++
              [error "Erro ao processar dados: single positional indexer is out-of-bounds"] |})
    end.
Proof.
  intros Hdf Htempo Haltura.
  assert (heap w !!! df = d) as Htot by now apply lookup_total_correct.
  unfold processar_dados, try_except.
  rewrite (bind_Ok _ _ w w (dom (heap w !!! df))) by reflexivity.
  rewrite Htot.
  assert (bool_decide ("tempo" ∉ dom d) || bool_decide ("altura" ∉ dom d) = false)
    as ->.
  { apply orb_false_iff. split; apply bool_decide_eq_false; intros Hn; apply Hn;
      apply elem_of_dom; [assumption | now exists hs]. }
  rewrite (bind_Ok _ _ w w hs) by (apply df_getitem_Some; now rewrite Htot).
  unfold altura_em_metros.
  destruct (Np.ltb (Pd.max hs) (Np.Fin 1)) eqn:Hlt.
  - rewrite (bind_Ok _ _ w w ()) by reflexivity.
    rewrite (bind_Ok _ _ w w hs) by (apply df_getitem_Some; now rewrite Htot).
    rewrite (insert_id d "altura" hs) by assumption.
    rewrite (insert_id (heap w) df d) by assumption.
    unfold Pd.iloc at 1. destruct (hs !! 0%nat) as [z0 |] eqn:Hz0.
    + rewrite (bind_Ok _ _ w w z0) by reflexivity.
      rewrite (bind_Ok _ _ w w hs) by (apply df_getitem_Some; now rewrite Htot).
      unfold df_setitem at 1. unfold mbind at 1, St_bind at 1.
      rewrite Htot. reflexivity.
    + erewrite bind_Raise by reflexivity.
      destruct w as [h p]. reflexivity.
  - set (hs' := Pd.truediv hs 100).
    set (w1 := {| heap := <[df := <["altura" := hs']> d]> (heap w);
                  page := page w |}).
    assert ((heap w1 !!! df) !! "altura" = Some hs') as Hget.
    { unfold w1; cbn [heap]. rewrite lookup_total_insert_eq.
      apply lookup_insert_eq. }
    rewrite (bind_Ok _ _ w w1 ()).
    2:{ rewrite (bind_Ok _ _ w w hs) by (apply df_getitem_Some; now rewrite Htot).
        unfold df_setitem. now rewrite Htot. }
    rewrite (bind_Ok _ _ w1 w1 hs') by now apply df_getitem_Some.
    unfold Pd.iloc at 1. destruct (hs' !! 0%nat) as [z0 |] eqn:Hz0.
    + rewrite (bind_Ok _ _ w1 w1 z0) by reflexivity.
      rewrite (bind_Ok _ _ w1 w1 hs') by now apply df_getitem_Some.
      unfold df_setitem at 1. unfold mbind at 1, St_bind at 1.
      unfold w1; cbn [heap page].
      rewrite lookup_total_insert_eq, insert_insert_eq. reflexivity.
    + erewrite bind_Raise by reflexivity. reflexivity.
Qed.

Lemma foldl_Rmax_lt (s : list R) (x b : R) :
  foldl Rmax x s < b <-> x < b /\ Forall (fun h => h < b) s.
Proof.
  revert x. induction s as [| a s IH]; intros x; cbn.
  - split; [intros H; split; [assumption | constructor] | now intros [H _]].
  - rewrite IH, Forall_cons. split.
    + intros [Hm Hs]. repeat split; try assumption.
      * eapply Rle_lt_trans; [apply Rmax_l | exact Hm].
      * eapply Rle_lt_trans; [apply Rmax_r | exact Hm].
    + intros (Hx & Ha & Hs). split; [| assumption].
      now apply Rmax_lub_lt.
Qed.

Lemma max_lt_1 (hs : list R) :
  Np.ltb (Pd.max hs) (Np.Fin 1) = true
  <-> hs <> [] /\ Forall (fun h => h < 1) hs.
Proof.
  destruct hs as [| x s]; cbn.
  - split; [discriminate | now intros [H _]].
  - rewrite bool_decide_eq_true, foldl_Rmax_lt, Forall_cons.
    split; [intros H; split; [discriminate | exact H] | now intros [_ H]].
Qed.

Lemma altura_em_metros_lt_1 (hs : list R) :
  Forall (fun h => h < 1) hs -> altura_em_metros hs = hs.
Proof.
  intros Hall. unfold altura_em_metros.
  destruct hs as [| x s]; [reflexivity |].
  assert (Np.ltb (Pd.max (x :: s)) (Np.Fin 1) = true) as ->
    by (apply max_lt_1; split; [discriminate | assumption]).
  reflexivity.
Qed.

Lemma altura_em_metros_ge_1 (hs : list R) :
  Exists (fun h => 1 <= h) hs ->
  altura_em_metros hs = (fun h => h / 100) <$> hs.
Proof.
  intros Hex. unfold altura_em_metros.
  destruct (Np.ltb (Pd.max hs) (Np.Fin 1)) eqn:Hlt; [| reflexivity].
  apply max_lt_1 in Hlt as [_ Hall]. exfalso.
  apply Exists_exists in Hex as (h & Hin & Hge).
  rewrite Forall_forall in Hall. specialize (Hall h Hin). lra.
Qed.

Lemma altura_em_metros_length (hs : list R) :
  length (altura_em_metros hs) = length hs.
Proof.
  unfold altura_em_metros, Pd.truediv.
  destruct (Np.ltb _ _); [reflexivity | apply length_fmap].
Qed.

Lemma altura_em_metros_head (hs : list R) :
  hs <> [] -> exists z0, altura_em_metros hs !! 0%nat = Some z0.
Proof.
  intros Hne. pose proof (altura_em_metros_length hs) as Hlen.
  destruct (altura_em_metros hs) as [| z0 s]; [| now exists z0].
  destruct hs; [contradiction | discriminate].
Qed.

(** C3. For every table with both columns, whatever the call returns, the
    height column the table holds afterwards is the uploaded one when every
    height is below 1 (the maximum is below 1), and the uploaded one with
    every height divided by 100 when some height reaches 1; nothing else is
    done to the heights. *)
Theorem processar_dados_unidade
    (df : loc) (w : world) (d : gmap string (list R)) (hs : list R) :
  heap w !! df = Some d -> is_Some (d !! "tempo") -> d !! "altura" = Some hs ->
  exists r w' d',
    processar_dados df w = (r, w') /\
    heap w' !! df = Some d' /\
    (Forall (fun h => h < 1) hs -> d' !! "altura" = Some hs) /\
    (Exists (fun h => 1 <= h) hs ->
       d' !! "altura" = Some ((fun h => h / 100) <$> hs)).
Proof.
  intros Hdf Htempo Haltura.
  rewrite (processar_dados_colunas_presentes df w d hs) by assumption.
  destruct (altura_em_metros hs !! 0%nat) as [z0 |];
    do 3 eexists; (split; [reflexivity |]); cbn [heap];
    (split; [apply lookup_insert_eq |]).
  - rewrite lookup_insert_ne by discriminate. rewrite lookup_insert_eq.
    split; intros H; f_equal;
      [now apply altura_em_metros_lt_1 | now apply altura_em_metros_ge_1].
  - rewrite lookup_insert_eq.
    split; intros H; f_equal;
      [now apply altura_em_metros_lt_1 | now apply altura_em_metros_ge_1].
Qed.

Lemma processar_dados_unidade_cm :
  exists r w' d',
    processar_dados 1%positive (mundo 1%positive (tabela [0; 60; 120] [5.0; 5.2; 5.35]))
    = (r, w') /\
    heap w' !! 1%positive = Some d' /\
    (Forall (fun h => h < 1) [5.0; 5.2; 5.35] ->
       d' !! "altura" = Some [5.0; 5.2; 5.35]) /\
    (Exists (fun h => 1 <= h) [5.0; 5.2; 5.35] ->
       d' !! "altura" = Some ((fun h => h / 100) <$> [5.0; 5.2; 5.35])).
Proof.
  apply (processar_dados_unidade 1%positive
           (mundo 1%positive (tabela [0; 60; 120] [5.0; 5.2; 5.35]))
           (tabela [0; 60; 120] [5.0; 5.2; 5.35])).
  - apply lookup_singleton_eq.
  - exists [0; 60; 120]. unfold tabela.
    rewrite lookup_insert_ne by discriminate. apply lookup_insert_eq.
  - apply lookup_insert_eq.
Defined.



(** C8. For every table that lacks the time column or the height column
    the call returns no table, writes exactly one error element naming the
    required columns, and leaves every table of the heap as it was: neither
    the unit conversion nor the baseline subtraction is run. *)
Theorem processar_dados_colunas
    (df : loc) (w : world) (d : gmap string (list R)) :
  heap w !! df = Some d ->
  d !! "tempo" = None \/ d !! "altura" = None ->
  processar_dados df w
  = (Py.Ok None,
     {| heap := heap w;
        page := page w ++
          [error "O arquivo CSV deve conter colunas 'tempo' (s) e 'altura' (m)"] |}).
Proof.
  intros Hdf Hmiss. apply processar_dados_colunas_ausentes.
  rewrite (lookup_total_correct _ _ _ Hdf).
  destruct Hmiss as [H | H]; [left | right]; now apply not_elem_of_dom.
Qed.

Lemma processar_dados_colunas_sem_altura :
  processar_dados 1%positive (mundo 1%positive {["tempo" := [0; 60; 120]]})
  = (Py.Ok None,
     {| heap := heap (mundo 1%positive {["tempo" := [0; 60; 120]]});
        page := page (mundo 1%positive {["tempo" := [0; 60; 120]]}) ++
          [error "O arquivo CSV deve conter colunas 'tempo' (s) e 'altura' (m)"] |}).
Proof.
  apply (processar_dados_colunas 1%positive
           (mundo 1%positive {["tempo" := [0; 60; 120]]})
           {["tempo" := [0; 60; 120]]}).
  - apply lookup_singleton_eq.
  - right. apply lookup_singleton_ne. discriminate.
Defined.

(** C10. The call works on the caller's table, not on a copy.  For every
    table with both columns and at least one row it returns the reference
    it was given; the heap afterwards differs from the heap before only at
    that reference; the table there has the column [delta_z2]; when some
    height reaches 1 its column [altura] holds the heights divided by 100;
    the other columns are those uploaded; and a table uploaded without a
    column [delta_z2] is no longer what the reference holds. *)
Theorem processar_dados_in_place
    (df : loc) (w : world) (d : gmap string (list R)) (hs : list R) :
  heap w !! df = Some d -> is_Some (d !! "tempo") -> d !! "altura" = Some hs ->
  hs <> [] ->
  exists w' d' delta_z2,
    processar_dados df w = (Py.Ok (Some df), w') /\
    heap w' = <[df := d']> (heap w) /\
    page w' = page w /\
    d' !! "delta_z2" = Some delta_z2 /\
    (Exists (fun h => 1 <= h) hs ->
       d' !! "altura" = Some ((fun h => h / 100) <$> hs)) /\
    (forall c, c <> "altura" -> c <> "delta_z2" -> d' !! c = d !! c) /\
    (d !! "delta_z2" = None -> heap w' !! df <> heap w !! df).
Proof.
  intros Hdf Htempo Haltura Hne.
  rewrite (processar_dados_colunas_presentes df w d hs) by assumption.
  destruct (altura_em_metros_head hs Hne) as [z0 Hz0]. rewrite Hz0.
  do 3 eexists. split; [reflexivity |]. cbn [heap page].
  split; [reflexivity |]. split; [reflexivity |].
  split; [apply lookup_insert_eq |].
  split.
  { intros Hex. rewrite lookup_insert_ne by discriminate.
    rewrite lookup_insert_eq. f_equal. now apply altura_em_metros_ge_1. }
  split.
  { intros c Hc1 Hc2. now rewrite !lookup_insert_ne by congruence. }
  intros Hnone. rewrite lookup_insert_eq, Hdf. intros [= E].
  rewrite <- E in Hnone. rewrite lookup_insert_eq in Hnone. discriminate.
Qed.

Lemma processar_dados_in_place_cm :
  exists w' d' delta_z2,
    processar_dados 1%positive
      (mundo 1%positive (tabela [0; 60; 120] [5.0; 5.2; 5.35]))
    = (Py.Ok (Some 1%positive), w') /\
    heap w' = <[1%positive := d']>
                (heap (mundo 1%positive (tabela [0; 60; 120] [5.0; 5.2; 5.35]))) /\
    page w' = page (mundo 1%positive (tabela [0; 60; 120] [5.0; 5.2; 5.35])) /\
    d' !! "delta_z2" = Some delta_z2 /\
    (Exists (fun h => 1 <= h) [5.0; 5.2; 5.35] ->
       d' !! "altura" = Some ((fun h => h / 100) <$> [5.0; 5.2; 5.35])) /\
    (forall c, c <> "altura" -> c <> "delta_z2" ->
       d' !! c = tabela [0; 60; 120] [5.0; 5.2; 5.35] !! c) /\
    (tabela [0; 60; 120] [5.0; 5.2; 5.35] !! "delta_z2" = None ->
       heap w' !! 1%positive
       <> heap (mundo 1%positive (tabela [0; 60; 120] [5.0; 5.2; 5.35]))
            !! 1%positive).
Proof.
  apply (processar_dados_in_place 1%positive
           (mundo 1%positive (tabela [0; 60; 120] [5.0; 5.2; 5.35]))
           (tabela [0; 60; 120] [5.0; 5.2; 5.35])
           [5.0; 5.2; 5.35]).
  - apply lookup_singleton_eq.
  - exists [0; 60; 120]. unfold tabela.
    rewrite lookup_insert_ne by discriminate. apply lookup_insert_eq.
  - apply lookup_insert_eq.
  - discriminate.
Defined.

(** A second holder of the reference sees the converted heights: the
    caller's variable and the returned one are the same table. *)
Lemma processar_dados_alias :
  exists w',
    processar_dados 1%positive
      (mundo 1%positive (tabela [0; 60; 120] [5.0; 5.2; 5.35]))
    = (Py.Ok (Some 1%positive), w') /\
    (heap w' !!! 1%positive) !! "altura"
    = Some [5.0 / 100; 5.2 / 100; 5.35 / 100].
Proof.
  rewrite (processar_dados_colunas_presentes 1%positive _
             (tabela [0; 60; 120] [5.0; 5.2; 5.35]) [5.0; 5.2; 5.35]).
  - assert (altura_em_metros [5.0; 5.2; 5.35]
            = [5.0 / 100; 5.2 / 100; 5.35 / 100]) as ->.
    { rewrite altura_em_metros_ge_1; [reflexivity |].
      apply Exists_cons_hd. lra. }
    cbn [lookup list_lookup]. eexists. split; [reflexivity |].
    cbn [heap]. rewrite lookup_total_insert_eq.
    rewrite lookup_insert_ne by discriminate. apply lookup_insert_eq.
  - apply lookup_singleton_eq.
  - exists [0; 60; 120]. unfold tabela.
    rewrite lookup_insert_ne by discriminate. apply lookup_insert_eq.
  - apply lookup_insert_eq.
Qed.

(** ** The least-squares problem of the fit *)

Section Ajuste.

Variable sb : sidebar.
Hypothesis valid : parametros_validos sb.

Lemma predicted_height_inj (t D D' : R) :
  0 < t -> 0 <= D -> 0 <= D' ->
  predicted_height sb t D = predicted_height sb t D' -> D = D'.
Proof.
  intros Ht HD HD' E. rewrite !predicted_height_k in E.
  pose proof (k_modelo_pos sb valid) as Hk.
  apply sqrt_inj in E.
  - apply Rmult_eq_reg_l in E; [| lra].
    apply Rmult_eq_reg_r in E; lra.
  - apply Rmult_le_pos; [lra |]. apply Rmult_le_pos; lra.
  - apply Rmult_le_pos; [lra |]. apply Rmult_le_pos; lra.
Qed.

Lemma soma_residuos_nonneg (ts hs : list R) (D : R) :
  0 <= soma_residuos sb ts hs D.
Proof.
  unfold soma_residuos. revert hs.
  induction ts as [| t ts IH]; intros [| h hs]; cbn [zip_with foldr]; try lra.
  specialize (IH hs). pose proof (pow2_ge_0 (h - predicted_height sb t D)). lra.
Qed.

Lemma soma_residuos_cons (t h : R) (ts hs : list R) (D : R) :
  soma_residuos sb (t :: ts) (h :: hs) D
  = (h - predicted_height sb t D) ^ 2 + soma_residuos sb ts hs D.
Proof. reflexivity. Qed.

(** With noise-free heights the sum of squared residuals vanishes at the
    generating coefficient and nowhere else, as soon as one time is
    positive: the exact least-squares problem has that coefficient as its
    only solution. *)
Lemma soma_residuos_zero_iff (ts : list R) (Dstar D : R) :
  0 <= Dstar -> 0 <= D -> Exists (fun t => 0 < t) ts ->
  soma_residuos sb ts ((fun t => predicted_height sb t Dstar) <$> ts) D = 0
  <-> D = Dstar.
Proof.
  intros HDs HD Hex. split.
  - induction Hex as [t ts Ht | t ts Hex IH]; rewrite fmap_cons, soma_residuos_cons;
      intros Hsum;
      pose proof (soma_residuos_nonneg ts
                    ((fun t => predicted_height sb t Dstar) <$> ts) D) as Hrest;
      pose proof (pow2_ge_0 (predicted_height sb t Dstar - predicted_height sb t D))
        as Hsq.
    + assert ((predicted_height sb t Dstar - predicted_height sb t D) ^ 2 = 0)
        as Hz by lra.
      rewrite <- Rsqr_pow2 in Hz. apply Rsqr_0_uniq in Hz.
      symmetry. apply (predicted_height_inj t); (assumption || lra).
    + apply IH. lra.
  - intros ->. clear Hex. induction ts as [| t ts IH]; [reflexivity |].
    rewrite fmap_cons, soma_residuos_cons, IH.
    rewrite Rminus_diag. cbn. ring.
Qed.

End Ajuste.

(** * Further properties of the script *)

(** ** Temperature correction: errors, order and composition *)

(** The correction raises [ZeroDivisionError] exactly when the reference
    temperature is zero: the quotient [T / T_ref] is the only division, and
    it is taken on Python floats before anything else. *)
Theorem calcular_D_AB_teorico_zero_division (T D_AB_ref T_ref : R) :
  (exists msg,
     calcular_D_AB_teorico T D_AB_ref T_ref
     = Py.Raise (Py.ZeroDivisionError msg))
  <-> T_ref = 0.
Proof.
  unfold calcular_D_AB_teorico, Py.truediv.
  destruct (decide (T_ref = 0)) as [Hz | Hz]; cbn.
  - split; [intros _; assumption |]. intros _. eexists. reflexivity.
  - split; [intros [msg Hm]; discriminate | contradiction].
Qed.

Lemma calcular_D_AB_teorico_float (T D_AB_ref T_ref : R) :
  0 < T -> 0 < T_ref ->
  calcular_D_AB_teorico T D_AB_ref T_ref
  = Py.Ok (Py.Float (D_AB_ref * Rpower (T / T_ref) 1.75)).
Proof.
  intros HT HTr. unfold calcular_D_AB_teorico, Py.truediv.
  rewrite decide_false_R by lra. cbn. unfold Py.pow.
  rewrite decide_true_R; [reflexivity |].
  apply Rdiv_lt_0_compat; assumption.
Qed.

(** For a positive reference diffusivity the corrected value grows
    strictly with the temperature. *)
Theorem calcular_D_AB_teorico_increasing (T1 T2 D_AB_ref T_ref : R) :
  0 < T1 -> T1 < T2 -> 0 < T_ref -> 0 < D_AB_ref ->
  exists d1 d2,
    calcular_D_AB_teorico T1 D_AB_ref T_ref = Py.Ok (Py.Float d1) /\
    calcular_D_AB_teorico T2 D_AB_ref T_ref = Py.Ok (Py.Float d2) /\
    d1 < d2.
Proof.
  intros H1 H12 HTr HD.
  rewrite !calcular_D_AB_teorico_float by lra.
  do 2 eexists. split; [reflexivity |]. split; [reflexivity |].
  apply Rmult_lt_compat_l; [assumption |].
  apply Rlt_Rpower_l; [lra |].
  assert (0 < / T_ref) as Hi by now apply Rinv_0_lt_compat.
  unfold Rdiv. split; [apply Rmult_lt_0_compat; lra |].
  apply Rmult_lt_compat_r; assumption.
Qed.

Lemma calcular_D_AB_teorico_increasing_318 :
  exists d1 d2,
    calcular_D_AB_teorico 298 1.09e-5 273 = Py.Ok (Py.Float d1) /\
    calcular_D_AB_teorico 318 1.09e-5 273 = Py.Ok (Py.Float d2) /\
    d1 < d2.
Proof.
  apply (calcular_D_AB_teorico_increasing 298 318 1.09e-5 273); lra.
Defined.

Lemma sin_175_PI : sin (1.75 * PI) < 0.
Proof.
  replace (1.75 * PI) with ((PI - PI / 4) + PI) by lra.
  rewrite neg_sin, sin_PI_x, sin_PI4.
  assert (0 < sqrt 2) as Hs by (apply sqrt_lt_R0; lra).
  assert (0 < 1 / sqrt 2) by (apply Rdiv_lt_0_compat; lra).
  lra.
Qed.

(** A negative temperature with a quotient [T / T_ref] of ordinary size
    (between 1e-100 and 1e100 in absolute value, so that the power neither
    overflows nor vanishes) and a reference diffusivity of at least 1e-100
    in absolute value: the fractional power of the negative quotient is a
    complex number, so the corrected coefficient is complex, and its
    imaginary part is not zero. *)
Theorem calcular_D_AB_teorico_negative (T D_AB_ref T_ref : R) :
  T < 0 -> 0 < T_ref ->
  1e-100 <= - (T / T_ref) <= 1e100 -> 1e-100 <= Rabs D_AB_ref ->
  exists re im,
    calcular_D_AB_teorico T D_AB_ref T_ref = Py.Ok (Py.Complex re im) /\
    im <> 0.
Proof.
  intros HT HTr Hq HD.
  assert (T / T_ref < 0) as Hneg by lra.
  assert (D_AB_ref <> 0) as HD0.
  { intros ->. rewrite Rabs_R0 in HD. lra. }
  unfold calcular_D_AB_teorico, Py.truediv.
  rewrite decide_false_R by lra. cbn. unfold Py.pow.
  rewrite decide_false_R by lra. rewrite decide_false_R by lra. cbn.
  do 2 eexists. split; [reflexivity |].
  pose proof sin_175_PI as Hs.
  assert (0 < Rpower (- (T / T_ref)) 1.75) as Hp by apply exp_pos.
  apply Rmult_integral_contrapositive_currified; [assumption |].
  apply Rmult_integral_contrapositive_currified; lra.
Qed.

Lemma calcular_D_AB_teorico_negative_40 :
  exists re im,
    calcular_D_AB_teorico (-40) 1.09e-5 273 = Py.Ok (Py.Complex re im) /\
    im <> 0.
Proof.
  apply (calcular_D_AB_teorico_negative (-40) 1.09e-5 273); try lra.
  rewrite Rabs_right; lra.
Defined.

(** ** Diffusion model: growth, and the edges of the domain *)

(** On valid parameters the squared height is [k * D * t], with [k] the
    coefficient made of the sidebar values: the height depends on the time
    and the diffusivity through their product only, and its square is
    linear in the time. *)
Theorem modelo_diffusao_square (sb : sidebar) (t D : R) :
  parametros_validos sb -> 0 <= t -> 0 <= D ->
  exists h,
    modelo_diffusao sb t D = Py.Ok (Np.Fin h) /\
    0 <= h /\ h * h = k_modelo sb * D * t.
Proof.
  intros Hv Ht HD. exists (predicted_height sb t D).
  split; [now apply modelo_diffusao_valid |].
  split; [now apply predicted_height_nonneg |].
  rewrite predicted_height_k by assumption.
  rewrite sqrt_sqrt; [ring |].
  pose proof (k_modelo_pos sb Hv).
  apply Rmult_le_pos; [lra |]. now apply Rmult_le_pos.
Qed.

Lemma modelo_diffusao_square_inicial :
  exists h,
    modelo_diffusao sidebar_inicial 60 1e-5 = Py.Ok (Np.Fin h) /\
    0 <= h /\ h * h = k_modelo sidebar_inicial * 1e-5 * 60.
Proof.
  apply (modelo_diffusao_square sidebar_inicial 60 1e-5).
  - sidebar_lra.
  - lra.
  - lra.
Defined.

(** On valid parameters the height grows strictly with the time for a
    positive diffusivity, and strictly with the diffusivity for a positive
    time. *)
Theorem modelo_diffusao_strict (sb : sidebar) (t D : R) :
  parametros_validos sb -> 0 <= t -> 0 <= D ->
  (forall t', 0 < D -> t < t' ->
     exists h h', modelo_diffusao sb t D = Py.Ok (Np.Fin h) /\
                  modelo_diffusao sb t' D = Py.Ok (Np.Fin h') /\ h < h') /\
  (forall D', 0 < t -> D < D' ->
     exists h h', modelo_diffusao sb t D = Py.Ok (Np.Fin h) /\
                  modelo_diffusao sb t D' = Py.Ok (Np.Fin h') /\ h < h').
Proof.
  intros Hv Ht HD. pose proof (k_modelo_pos sb Hv) as Hk.
  split.
  - intros t' HD0 Htt.
    exists (predicted_height sb t D), (predicted_height sb t' D).
    rewrite !modelo_diffusao_valid by (assumption || lra).
    split; [reflexivity |]. split; [reflexivity |].
    rewrite !predicted_height_k by assumption.
    apply sqrt_lt_1.
    + apply Rmult_le_pos; [lra |]. now apply Rmult_le_pos.
    + apply Rmult_le_pos; [lra |]. apply Rmult_le_pos; lra.
    + apply Rmult_lt_compat_l; [assumption |].
      now apply Rmult_lt_compat_l.
  - intros D' Ht0 HDD.
    exists (predicted_height sb t D), (predicted_height sb t D').
    rewrite !modelo_diffusao_valid by (assumption || lra).
    split; [reflexivity |]. split; [reflexivity |].
    rewrite !predicted_height_k by assumption.
    apply sqrt_lt_1.
    + apply Rmult_le_pos; [lra |]. now apply Rmult_le_pos.
    + apply Rmult_le_pos; [lra |]. apply Rmult_le_pos; lra.
    + apply Rmult_lt_compat_l; [assumption |].
      now apply Rmult_lt_compat_r.
Qed.

Lemma modelo_diffusao_strict_inicial :
  (forall t', 0 < 1e-5 -> 60 < t' ->
     exists h h', modelo_diffusao sidebar_inicial 60 1e-5 = Py.Ok (Np.Fin h) /\
                  modelo_diffusao sidebar_inicial t' 1e-5 = Py.Ok (Np.Fin h') /\
                  h < h') /\
  (forall D', 0 < 60 -> 1e-5 < D' ->
     exists h h', modelo_diffusao sidebar_inicial 60 1e-5 = Py.Ok (Np.Fin h) /\
                  modelo_diffusao sidebar_inicial 60 D' = Py.Ok (Np.Fin h') /\
                  h < h').
Proof.
  apply (modelo_diffusao_strict sidebar_inicial 60 1e-5).
  - sidebar_lra.
  - lra.
  - lra.
Defined.

(** On valid parameters a time and a diffusivity of opposite signs give
    NaN, without an exception: this is what the fit receives when it tries
    a negative coefficient. *)
Theorem modelo_diffusao_negative_product (sb : sidebar) (t D : R) :
  parametros_validos sb -> D * t < 0 ->
  modelo_diffusao sb t D = Py.Ok Np.NaN.
Proof.
  intros Hv Hneg. unfold modelo_diffusao.
  rewrite (termo_valid sb Hv), (log_term_valid sb Hv). cbn.
  rewrite decide_true_R; [reflexivity |].
  rewrite (radicand_k sb). pose proof (k_modelo_pos sb Hv) as Hk.
  rewrite <- (Rmult_0_r (k_modelo sb)). now apply Rmult_lt_compat_l.
Qed.

Lemma modelo_diffusao_negative_product_inicial :
  modelo_diffusao sidebar_inicial 60 (-1e-5) = Py.Ok Np.NaN.
Proof.
  apply (modelo_diffusao_negative_product sidebar_inicial 60 (-1e-5)).
  - sidebar_lra.
  - lra.
Defined.

(** A zero temperature or a zero density makes the denominator of the
    coefficient zero.  The quotient is a NumPy one: nothing is raised, and
    with a positive molar mass, a pressure above the vapour pressure and a
    positive diffusivity the height returned is never a finite number,
    whatever the time: it is NaN at time 0, and an infinity or NaN at
    every other time. *)
Theorem modelo_diffusao_zero_denominator (sb : sidebar) (t D : R) :
  rho_A sb * R_gas * T sb = 0 ->
  0 < M_A sb -> P_A1 < P_total sb -> 0 < D ->
  exists h,
    modelo_diffusao sb t D = Py.Ok h /\
    Np.isfinite h = false /\
    (t = 0 -> h = Np.NaN).
Proof.
  intros Hden HM HP HD. pose proof P_A1_pos as HA.
  assert (1 < (P_total sb - P_A2) / (P_total sb - P_A1)) as Hq
    by (apply Rdiv_gt_1; unfold P_A2; lra).
  pose proof (ln_pos _ Hq) as Hln.
  assert (0 < 2 * M_A sb * D * P_total sb) as Hnum.
  { apply Rmult_lt_0_compat; [| lra].
    apply Rmult_lt_0_compat; [lra | assumption]. }
  assert (termo sb D = Np.PInf) as Htermo.
  { unfold termo. cbn. rewrite decide_true_R by assumption.
    unfold Np.signed_inf. now rewrite decide_true_R by assumption. }
  unfold modelo_diffusao. rewrite Htermo, log_term_fin by lra. cbn.
  unfold Np.signed_inf. rewrite decide_true_R by assumption. cbn.
  unfold Np.signed_inf.
  destruct (decide (0 < t)) as [Ht | Ht].
  - eexists. split; [reflexivity |]. cbn. split; [reflexivity | lra].
  - destruct (decide (t < 0)) as [Ht' | Ht'];
      eexists; (split; [reflexivity |]); cbn; split; reflexivity.
Qed.

Lemma modelo_diffusao_zero_denominator_T0 :
  exists h,
    modelo_diffusao (Sidebar 58.08 791.0 1.0 0 1.09e-5) 60 1e-5 = Py.Ok h /\
    Np.isfinite h = false /\
    (60 = 0 -> h = Np.NaN).
Proof.
  apply (modelo_diffusao_zero_denominator (Sidebar 58.08 791.0 1.0 0 1.09e-5) 60 1e-5).
  - cbv [rho_A T]. lra.
  - cbv [M_A]. lra.
  - cbv [P_total P_A1 P]. lra.
  - lra.
Defined.

(** ** Data preparation: failures, and calling it again *)

Lemma lookup_total_column (w : world) (df : loc) (c : string) (s : list R) :
  (heap w !!! df) !! c = Some s -> heap w !! df = Some (heap w !!! df).
Proof.
  rewrite lookup_total_alt.
  destruct (heap w !! df) as [d |]; [reflexivity |].
  cbn. rewrite lookup_empty. discriminate.
Qed.

(** The call never lets an exception out, and it returns either nothing
    or the reference it was given.  It returns the reference only for a
    table with both columns and at least one height; and for such a table
    of numbers, the tables of this model, it does return it. *)
Theorem processar_dados_returns (df : loc) (w : world) :
  exists r w',
    processar_dados df w = (Py.Ok r, w') /\
    (r = None \/ r = Some df) /\
    (r = Some df ->
     "tempo" ∈ dom (heap w !!! df) /\
     exists hs : list R, (heap w !!! df) !! "altura" = Some hs /\ hs <> []) /\
    ("tempo" ∈ dom (heap w !!! df) ->
     forall hs : list R, (heap w !!! df) !! "altura" = Some hs -> hs <> [] ->
     r = Some df).
Proof.
  destruct (decide ("tempo" ∈ dom (heap w !!! df))) as [Ht | Ht].
  2:{ rewrite processar_dados_colunas_ausentes by now left.
      do 2 eexists. split; [reflexivity |]. split; [now left |].
      split; [discriminate | contradiction]. }
  destruct ((heap w !!! df) !! "altura") as [hs |] eqn:Ha.
  2:{ rewrite processar_dados_colunas_ausentes
        by (right; now apply not_elem_of_dom).
      do 2 eexists. split; [reflexivity |]. split; [now left |].
      split; [discriminate | intros _ hs; discriminate]. }
  rewrite (processar_dados_colunas_presentes df w (heap w !!! df) hs);
    [| now apply (lookup_total_column w df "altura" hs)
     | now apply elem_of_dom | assumption].
  destruct hs as [| h hs].
  - assert (altura_em_metros [] = []) as -> by reflexivity. cbn [lookup list_lookup].
    do 2 eexists. split; [reflexivity |]. split; [now left |].
    split; [discriminate |]. intros _ hs' [= <-] Hne. contradiction.
  - destruct (altura_em_metros_head (h :: hs)) as [z0 ->]; [discriminate |].
    do 2 eexists. split; [reflexivity |]. split; [now right |].
    split; [| reflexivity]. intros _. split; [assumption |].
    exists (h :: hs). split; [reflexivity | discriminate].
Qed.

(** A table with both columns and no rows: the first height does not
    exist, the handler reports the index error, nothing is returned and
    the table is what it was. *)
Theorem processar_dados_empty
    (df : loc) (w : world) (d : gmap string (list R)) :
  heap w !! df = Some d -> is_Some (d !! "tempo") -> d !! "altura" = Some [] ->
  processar_dados df w
  = (Py.Ok None,
     {| heap := heap w;
        page := page w ++
          [error "Erro ao processar dados: single positional indexer is out-of-bounds"] |}).
Proof.
  intros Hdf Htempo Haltura.
  rewrite (processar_dados_colunas_presentes df w d []) by assumption.
  assert (altura_em_metros [] = []) as -> by reflexivity. cbn [lookup list_lookup].
  rewrite (insert_id d "altura" []) by assumption.
  now rewrite (insert_id (heap w) df d) by assumption.
Qed.

Lemma processar_dados_empty_tabela :
  processar_dados 1%positive (mundo 1%positive (tabela [] []))
  = (Py.Ok None,
     {| heap := heap (mundo 1%positive (tabela [] []));
        page := page (mundo 1%positive (tabela [] [])) ++
          [error "Erro ao processar dados: single positional indexer is out-of-bounds"] |}).
Proof.
  apply (processar_dados_empty 1%positive (mundo 1%positive (tabela [] []))
           (tabela [] [])).
  - apply lookup_singleton_eq.
  - exists []. unfold tabela.
    rewrite lookup_insert_ne by discriminate. apply lookup_insert_eq.
  - apply lookup_insert_eq.
Defined.

Lemma altura_em_metros_lt_100 (hs : list R) :
  Forall (fun h => h < 100) hs -> Forall (fun h => h < 1) (altura_em_metros hs).
Proof.
  intros Hall. unfold altura_em_metros.
  destruct (Np.ltb (Pd.max hs) (Np.Fin 1)) eqn:Hlt.
  - now apply max_lt_1 in Hlt as [_ H].
  - unfold Pd.truediv. apply Forall_fmap.
    eapply Forall_impl; [exact Hall |]. cbn. intros h Hh. lra.
Qed.

(** When every height is below 100, a second call on the table the first
    call left changes nothing more: the heights are not divided again and
    the same [delta_z2] is written. *)
Theorem processar_dados_twice
    (df : loc) (w : world) (d : gmap string (list R)) (hs : list R) :
  heap w !! df = Some d -> is_Some (d !! "tempo") -> d !! "altura" = Some hs ->
  hs <> [] -> Forall (fun h => h < 100) hs ->
  exists w1,
    processar_dados df w = (Py.Ok (Some df), w1) /\
    processar_dados df w1 = (Py.Ok (Some df), w1).
Proof.
  intros Hdf Htempo Haltura Hne Hall.
  rewrite (processar_dados_colunas_presentes df w d hs) by assumption.
  destruct (altura_em_metros_head hs Hne) as [z0 Hz0]. rewrite Hz0.
  eexists. split; [reflexivity |].
  set (hs' := altura_em_metros hs) in *.
  set (dz := Pd.sub (Pd.pow hs' 2) (z0 ^ 2)).
  set (d1 := <["delta_z2" := dz]> (<["altura" := hs']> d)).
  assert (d1 !! "altura" = Some hs') as Ha1
    by (unfold d1; rewrite lookup_insert_ne by discriminate;
        apply lookup_insert_eq).
  assert (is_Some (d1 !! "tempo")) as Ht1
    by (unfold d1; now rewrite !lookup_insert_ne by discriminate).
  assert (altura_em_metros hs' = hs') as Hfix
    by (apply altura_em_metros_lt_1; now apply altura_em_metros_lt_100).
  rewrite (processar_dados_colunas_presentes df _ d1 hs');
    [| apply lookup_insert_eq | assumption | assumption].
  rewrite Hfix, Hz0. cbn [heap page]. fold dz.
  rewrite (insert_id d1 "altura" hs') by assumption.
  rewrite (insert_id d1 "delta_z2" dz) by apply lookup_insert_eq.
  now rewrite insert_insert_eq.
Qed.

Lemma processar_dados_twice_cm :
  exists w1,
    processar_dados 1%positive
      (mundo 1%positive (tabela [0; 60; 120] [5.0; 5.2; 5.35]))
    = (Py.Ok (Some 1%positive), w1) /\
    processar_dados 1%positive w1 = (Py.Ok (Some 1%positive), w1).
Proof.
  apply (processar_dados_twice 1%positive
           (mundo 1%positive (tabela [0; 60; 120] [5.0; 5.2; 5.35]))
           (tabela [0; 60; 120] [5.0; 5.2; 5.35])
           [5.0; 5.2; 5.35]).
  - apply lookup_singleton_eq.
  - exists [0; 60; 120]. unfold tabela.
    rewrite lookup_insert_ne by discriminate. apply lookup_insert_eq.
  - apply lookup_insert_eq.
  - discriminate.
  - repeat constructor; lra.
Defined.

(** ** The import tab and the session *)

Lemma bind_Ok_Ap {A B} (m : Ap A) (k : A -> Ap B) (s s' : app) (a : A) :
  m s = (Py.Ok a, s') -> (m ≫= k) s = k a s'.
Proof. intros E. unfold mbind, Ap_bind. now rewrite E. Qed.

Lemma bind_Raise_Ap {A B} (m : Ap A) (k : A -> Ap B) (s s' : app) (e : Py.exn) :
  m s = (Py.Raise e, s') -> (m ≫= k) s = (Py.Raise e, s').
Proof. intros E. unfold mbind, Ap_bind. now rewrite E. Qed.

Lemma run_getitem (s : app) (df : loc) (d : gmap string (list R))
    (c : string) (col : list R) :
  objects s !! df = Some d -> d !! c = Some col ->
  run (df_getitem df c) s = (Py.Ok col, s).
Proof.
  intros Hdf Hc. unfold run, df_getitem. cbn [heap].
  rewrite (lookup_total_correct _ _ _ Hdf), Hc. cbn.
  rewrite app_nil_r. now destruct s.
Qed.

Lemma run_processar_dados (s : app) (df : loc) (r : option loc) (w : world) :
  processar_dados df {| heap := objects s; page := [] |} = (Py.Ok r, w) ->
  run (processar_dados df) s
  = (Py.Ok r, {| objects := heap w; screen := screen s ++ (failure <$> page w);
                 session := session s |}).
Proof. intros E. unfold run. now rewrite E. Qed.

Lemma processed_after (d : gmap string (list R)) (ts hs : list R) (z0 : R) :
  d !! "tempo" = Some ts -> altura_em_metros hs !! 0%nat = Some z0 ->
  processed (<["delta_z2" := Pd.sub (Pd.pow (altura_em_metros hs) 2) (z0 ^ 2)]>
               (<["altura" := altura_em_metros hs]> d)).
Proof.
  intros Hts Hz0. exists ts, (altura_em_metros hs), z0.
  split; [now rewrite !lookup_insert_ne by discriminate |].
  split; [rewrite lookup_insert_ne by discriminate; apply lookup_insert_eq |].
  split; [assumption | apply lookup_insert_eq].
Qed.

Lemma fresh_object (s : app) (l : loc) :
  is_Some (objects s !! l) -> l <> fresh (dom (objects s)).
Proof.
  intros Hl ->. apply elem_of_dom in Hl. now apply is_fresh in Hl.
Qed.

(** What one upload does to the application, case by case. *)
Lemma tab1_cases (up : option (Py.result (gmap string (list R)))) (s : app) :
  exists s',
    tab1 up s = (Py.Ok (), s') /\
    ((session s' = session s /\
      (forall l, is_Some (objects s !! l) -> objects s' !! l = objects s !! l) /\
      forall d hs, up = Some (Py.Ok d) -> is_Some (d !! "tempo") ->
                   d !! "altura" = Some hs -> hs = [])
     \/
     (exists d d' ts hs,
        up = Some (Py.Ok d) /\ d !! "tempo" = Some ts /\
        d !! "altura" = Some hs /\ hs <> [] /\ processed d' /\
        d' !! "altura" = Some (altura_em_metros hs) /\
        d' !! "tempo" = Some ts /\
        screen s' = screen s ++ [success "Arquivo carregado com sucesso!"] /\
        objects s' = <[fresh (dom (objects s)) := d']> (objects s) /\
        session s' = {| df_exp := Some (fresh (dom (objects s)));
                        D_AB_exp := D_AB_exp (session s) |})).
Proof.
  destruct up as [[d | e] |]; unfold tab1.
  3:{ eexists. split; [reflexivity |]. left. repeat split; discriminate. }
  2:{ unfold try_except_Ap.
      erewrite bind_Raise_Ap by reflexivity.
      eexists. split; [reflexivity |]. left. cbn.
      repeat split; discriminate. }
  set (df := fresh (dom (objects s))).
  set (s1 := {| objects := <[df := d]> (objects s);
                screen := screen s ++ [success "Arquivo carregado com sucesso!"];
                session := session s |}).
  assert (forall l, is_Some (objects s !! l) -> l <> df) as Hfresh
    by (intros l Hl; now apply fresh_object).
  unfold try_except_Ap.
  rewrite (bind_Ok_Ap _ _ s
             {| objects := <[df := d]> (objects s); screen := screen s;
                session := session s |} df) by reflexivity.
  rewrite (bind_Ok_Ap _ _ _ s1 ()) by reflexivity.
  assert (heap {| heap := objects s1; page := [] |} !! df = Some d) as Hdf
    by apply lookup_insert_eq.
  destruct (d !! "tempo") as [ts |] eqn:Hts.
  2:{ erewrite bind_Ok_Ap.
      2:{ apply run_processar_dados.
          apply processar_dados_colunas_ausentes.
          rewrite (lookup_total_correct _ _ _ Hdf).
          left. now apply not_elem_of_dom. }
      eexists. split; [reflexivity |]. left. cbn.
      split; [reflexivity |]. split.
      - intros l Hl. apply lookup_insert_ne. apply not_eq_sym. now apply Hfresh.
      - intros d0 hs [= <-] [? ?]. congruence. }
  destruct (d !! "altura") as [hs |] eqn:Hhs.
  2:{ erewrite bind_Ok_Ap.
      2:{ apply run_processar_dados.
          apply processar_dados_colunas_ausentes.
          rewrite (lookup_total_correct _ _ _ Hdf).
          right. now apply not_elem_of_dom. }
      eexists. split; [reflexivity |]. left. cbn.
      split; [reflexivity |]. split.
      - intros l Hl. apply lookup_insert_ne. apply not_eq_sym. now apply Hfresh.
      - intros d0 hs [= <-] _. congruence. }
  pose proof (processar_dados_colunas_presentes df
                {| heap := objects s1; page := [] |} d hs Hdf
                (ex_intro _ ts Hts) Hhs) as Hrun.
  cbn [heap page] in Hrun. unfold s1 in Hrun at 2 3. cbn [objects] in Hrun.
  destruct (altura_em_metros hs !! 0%nat) as [z0 |] eqn:Hz0.
  - erewrite bind_Ok_Ap by (apply run_processar_dados; exact Hrun).
    cbn [heap page objects screen session fmap list_fmap].
    set (d' := <["delta_z2" := Pd.sub (Pd.pow (altura_em_metros hs) 2) (z0 ^ 2)]>
                 (<["altura" := altura_em_metros hs]> d)).
    assert (processed d') as Hd' by now apply (processed_after d ts hs z0).
    assert (d' !! "altura" = Some (altura_em_metros hs)) as Ha'
      by (unfold d'; rewrite lookup_insert_ne by discriminate;
          apply lookup_insert_eq).
    assert (d' !! "tempo" = Some ts) as Ht'
      by (unfold d'; now rewrite !lookup_insert_ne by discriminate).
    erewrite bind_Ok_Ap
      by (eapply run_getitem; [apply lookup_insert_eq | exact Ht']).
    erewrite bind_Ok_Ap
      by (eapply run_getitem; [apply lookup_insert_eq | exact Ha']).
    erewrite bind_Ok_Ap by reflexivity.
    eexists. split; [reflexivity |]. right.
    exists d, d', ts, hs. cbn.
    repeat split; try assumption; try reflexivity;
      try apply insert_insert_eq; try apply app_nil_r.
    intros ->. discriminate.
  - erewrite bind_Ok_Ap by (apply run_processar_dados; exact Hrun).
    cbn [heap page objects screen session fmap list_fmap].
    eexists. split; [reflexivity |]. left. cbn.
    split; [reflexivity |]. split.
    + intros l Hl.
      rewrite !lookup_insert_ne by (apply not_eq_sym; now apply Hfresh).
      reflexivity.
    + intros d0 hs0 [= <-] _ Hhs0. assert (hs0 = hs) as -> by congruence.
      pose proof (altura_em_metros_length hs) as Hlen.
      destruct (altura_em_metros hs); [| discriminate].
      now destruct hs.
Qed.

(** The import tab never lets an exception out, leaves every table that
    existed and the stored coefficient as they were, and keeps the session
    sound: the table the session refers to is always a processed one. *)
Theorem tab1_session_ok
    (up : option (Py.result (gmap string (list R)))) (s : app) :
  session_ok s ->
  exists s',
    tab1 up s = (Py.Ok (), s') /\
    session_ok s' /\
    (forall l, is_Some (objects s !! l) -> objects s' !! l = objects s !! l) /\
    D_AB_exp (session s') = D_AB_exp (session s).
Proof.
  intros Hok.
  destruct (tab1_cases up s) as (s' & Hrun & [(Hs & Hfr & _) | Hacc]).
  - exists s'. split; [assumption |]. split; [| split; [assumption |]].
    + intros df Hdf. rewrite Hs in Hdf.
      destruct (Hok df Hdf) as (d & Hd & Hp). exists d. split; [| assumption].
      rewrite Hfr; [assumption | now exists d].
    + now rewrite Hs.
  - destruct Hacc as (d & d' & ts & hs & _ & _ & _ & _ & Hp & _ & _ & _ & Hobj & Hs).
    exists s'. split; [assumption |]. split; [| split].
    + intros df Hdf. rewrite Hs in Hdf. injection Hdf as <-.
      exists d'. split; [| assumption]. rewrite Hobj. apply lookup_insert_eq.
    + intros l Hl. rewrite Hobj. apply lookup_insert_ne.
      apply not_eq_sym. now apply fresh_object.
    + now rewrite Hs.
Qed.

Lemma tab1_session_ok_start :
  exists s',
    tab1 (Some (Py.Ok (tabela [0; 60; 120] [5.0; 5.2; 5.35])))
         (App ∅ [] (SessionState None None))
    = (Py.Ok (), s') /\
    session_ok s' /\
    (forall l, is_Some (objects (App ∅ [] (SessionState None None)) !! l) ->
               objects s' !! l
               = objects (App ∅ [] (SessionState None None)) !! l) /\
    D_AB_exp (session s')
    = D_AB_exp (session (App ∅ [] (SessionState None None))).
Proof.
  apply (tab1_session_ok
           (Some (Py.Ok (tabela [0; 60; 120] [5.0; 5.2; 5.35])))
           (App ∅ [] (SessionState None None))).
  intros df Hdf. discriminate.
Defined.

(** A rejected upload leaves the session as it was and the table the
    session refers to as it was: in a sound session the table of an earlier
    upload stays, unchanged, the one the fit tab works on. *)
Theorem tab1_rejected
    (up : option (Py.result (gmap string (list R)))) (s : app) :
  session_ok s -> rejected up ->
  exists s',
    tab1 up s = (Py.Ok (), s') /\
    session s' = session s /\
    session_ok s' /\
    (forall df, df_exp (session s) = Some df ->
                is_Some (objects s !! df) /\
                objects s' !! df = objects s !! df).
Proof.
  intros Hok Hrej.
  destruct (tab1_cases up s) as (s' & Hrun & [(Hs & Hfr & _) | Hacc]).
  - exists s'. split; [assumption |]. split; [assumption |].
    assert (forall df, df_exp (session s) = Some df ->
              is_Some (objects s !! df) /\
              objects s' !! df = objects s !! df) as Hsame.
    { intros df Hdf. destruct (Hok df Hdf) as (d & Hd & _).
      assert (is_Some (objects s !! df)) as Hsome by now exists d.
      split; [assumption | now apply Hfr]. }
    split; [| assumption].
    intros df Hdf. rewrite Hs in Hdf.
    destruct (Hok df Hdf) as (d & Hd & Hp). exists d. split; [| assumption].
    destruct (Hsame df Hdf) as [_ ->]. assumption.
  - exfalso.
    destruct Hacc as (d & d' & ts & hs & -> & Hts & Hhs & Hne & _).
    cbn in Hrej. destruct Hrej as [H | [H | H]]; congruence.
Qed.

Lemma tab1_rejected_sem_altura :
  exists s',
    tab1 (Some (Py.Ok {["tempo" := [0; 60; 120]]})) (app_exemplo (Some 1e-5))
    = (Py.Ok (), s') /\
    session s' = session (app_exemplo (Some 1e-5)) /\
    session_ok s' /\
    (forall df, df_exp (session (app_exemplo (Some 1e-5))) = Some df ->
                is_Some (objects (app_exemplo (Some 1e-5)) !! df) /\
                objects s' !! df = objects (app_exemplo (Some 1e-5)) !! df).
Proof.
  apply (tab1_rejected (Some (Py.Ok {["tempo" := [0; 60; 120]]}))
           (app_exemplo (Some 1e-5))).
  - intros df [= <-]. eexists. split; [apply lookup_singleton_eq |].
    exists [0; 60], [0.05; 0.052], 0.05. unfold tabela.
    split; [rewrite !lookup_insert_ne by discriminate; apply lookup_insert_eq |].
    split; [rewrite lookup_insert_ne by discriminate; apply lookup_insert_eq |].
    split; [reflexivity | apply lookup_insert_eq].
  - right. left. apply lookup_singleton_ne. discriminate.
Defined.

(** An upload of numbers with both columns and at least one row is taken:
    the session then refers to a new object, no table that existed before,
    and that object is the processed table, its heights being the uploaded
    ones after the unit test. *)
Theorem tab1_accepted
    (d : gmap string (list R)) (ts hs : list R) (s : app) :
  d !! "tempo" = Some ts -> d !! "altura" = Some hs -> hs <> [] ->
  exists s' df d',
    tab1 (Some (Py.Ok d)) s = (Py.Ok (), s') /\
    objects s !! df = None /\
    df_exp (session s') = Some df /\
    objects s' !! df = Some d' /\
    processed d' /\
    d' !! "altura" = Some (altura_em_metros hs).
Proof.
  intros Hts Hhs Hne.
  destruct (tab1_cases (Some (Py.Ok d)) s)
    as (s' & Hrun & [(_ & _ & Hemp) | Hacc]).
  - exfalso. apply Hne.
    apply (Hemp d hs); [reflexivity | now exists ts | assumption].
  - destruct Hacc as (d0 & d' & ts0 & hs0 & [= <-] & _ & Hhs0 & _ & Hp & Ha
                      & _ & _ & Hobj & Hs).
    assert (hs0 = hs) as -> by congruence.
    exists s', (fresh (dom (objects s))), d'.
    split; [assumption |].
    split; [apply not_elem_of_dom, is_fresh |].
    split; [now rewrite Hs |].
    split; [rewrite Hobj; apply lookup_insert_eq |].
    split; assumption.
Qed.

Lemma tab1_accepted_cm :
  exists s' df d',
    tab1 (Some (Py.Ok (tabela [0; 60; 120] [5.0; 5.2; 5.35])))
         (App ∅ [] (SessionState None None))
    = (Py.Ok (), s') /\
    objects (App ∅ [] (SessionState None None)) !! df = None /\
    df_exp (session s') = Some df /\
    objects s' !! df = Some d' /\
    processed d' /\
    d' !! "altura" = Some (altura_em_metros [5.0; 5.2; 5.35]).
Proof.
  apply (tab1_accepted (tabela [0; 60; 120] [5.0; 5.2; 5.35])
           [0; 60; 120] [5.0; 5.2; 5.35] (App ∅ [] (SessionState None None))).
  - unfold tabela. rewrite lookup_insert_ne by discriminate.
    apply lookup_insert_eq.
  - apply lookup_insert_eq.
  - discriminate.
Defined.

(** ** The fit tab and the session *)

Lemma keeps_tables_ret {A} (a : A) : keeps_tables (mret a : Ap A).
Proof. intros s r s' [= <- <-]. now split. Qed.

Lemma keeps_tables_bind {A B} (m : Ap A) (k : A -> Ap B) :
  keeps_tables m -> (forall a, keeps_tables (k a)) -> keeps_tables (m ≫= k).
Proof.
  intros Hm Hk s r s'. unfold mbind, Ap_bind.
  destruct (m s) as [[a | e] s1] eqn:E1; destruct (Hm _ _ _ E1) as [Ho Hd].
  - intros E2. destruct (Hk a _ _ _ E2) as [Ho' Hd']. split; congruence.
  - intros [= <- <-]. now split.
Qed.

Lemma keeps_tables_try {A} (m : Ap A) (h : Py.exn -> Ap A) :
  keeps_tables m -> (forall e, keeps_tables (h e)) ->
  keeps_tables (try_except_Ap m h).
Proof.
  intros Hm Hh s r s'. unfold try_except_Ap.
  destruct (m s) as [[a | e] s1] eqn:E1; destruct (Hm _ _ _ E1) as [Ho Hd].
  - intros [= <- <-]. now split.
  - intros E2. destruct (Hh e _ _ _ E2) as [Ho' Hd']. split; congruence.
Qed.

Lemma keeps_tables_raise_or_return {A} (r : Py.result A) :
  keeps_tables (raise_or_return r).
Proof. intros s r' s' [= <- <-]. now split. Qed.

Lemma keeps_tables_write (m : message) : keeps_tables (write_message m).
Proof. intros s r s' [= <- <-]. now split. Qed.

Lemma keeps_tables_get_session : keeps_tables get_session.
Proof. intros s r s' [= <- <-]. now split. Qed.

Lemma keeps_tables_getitem (df : loc) (c : string) :
  keeps_tables (run (df_getitem df c)).
Proof.
  intros s r s'. unfold run, df_getitem. cbn [heap].
  destruct ((objects s !!! df) !! c); intros [= <- <-]; now split.
Qed.

Lemma keeps_tables_update {B} (f : session_state -> session_state)
    (k : () -> Ap B) :
  (forall st, df_exp (f st) = df_exp st) -> (forall u, keeps_tables (k u)) ->
  keeps_tables (get_session ≫= fun st => set_session (f st) ≫= k).
Proof.
  intros Hf Hk s r s'. unfold mbind, Ap_bind, get_session, set_session.
  intros E. destruct (Hk () _ _ _ E) as [Ho Hd]. cbn in Ho, Hd.
  split; [assumption |]. now rewrite Hd, Hf.
Qed.

Create HintDb keeps.

#[local] Hint Resolve keeps_tables_ret keeps_tables_raise_or_return
  keeps_tables_write keeps_tables_get_session keeps_tables_getitem
  : keeps.

Ltac keeps_step :=
  repeat first
    [ apply keeps_tables_bind; [| intros ?]
    | apply keeps_tables_try; [| intros ?]
    | solve [auto with keeps] ].

Lemma try_except_Ap_returns (m : Ap ()) (h : Py.exn -> Ap ()) (s : app) :
  (forall e s1, exists s2, h e s1 = (Py.Ok (), s2)) ->
  exists s', try_except_Ap m h s = (Py.Ok (), s').
Proof.
  intros Hh. unfold try_except_Ap.
  destruct (m s) as [[[] | e] s1]; [now exists s1 | apply Hh].
Qed.

Section Tab2_properties.

Variable sb : sidebar.
Variable curve_fit :
  (list R -> R -> Py.result (list Np.float64)) -> list R -> list R -> list R ->
  Py.result (list R * list (list Np.float64)).

Lemma keeps_tables_z2_teorico (df : loc) (D : R) :
  keeps_tables (z2_teorico sb df D).
Proof. unfold z2_teorico. keeps_step. Qed.

(** The fit tab never lets an exception out, and whatever the fit does it
    leaves the tables and the reference the session holds as they were:
    only the stored coefficient and the screen can change. *)
Theorem tab2_keeps_tables (s : app) :
  exists s',
    tab2 sb curve_fit s = (Py.Ok (), s') /\
    objects s' = objects s /\
    df_exp (session s') = df_exp (session s).
Proof.
  assert (keeps_tables (tab2 sb curve_fit)) as Hkeeps.
  { unfold tab2. apply keeps_tables_bind; [auto with keeps |]. intros st.
    destruct (df_exp st) as [df |]; [| auto with keeps].
    apply keeps_tables_try; [| intros e; auto with keeps].
    do 4 (apply keeps_tables_bind; [auto with keeps | intros ?]).
    apply keeps_tables_update; [reflexivity |]. intros _.
    keeps_step. }
  assert (exists s', tab2 sb curve_fit s = (Py.Ok (), s')) as [s' Hrun].
  { unfold tab2. rewrite (bind_Ok_Ap _ _ s s (session s)) by reflexivity.
    destruct (df_exp (session s)) as [df |].
    - apply try_except_Ap_returns. intros e s1. eexists. reflexivity.
    - eexists. reflexivity. }
  exists s'. split; [assumption |]. exact (Hkeeps _ _ _ Hrun).
Qed.

Lemma log_term_defined :
  P_total sb - P_A1 <> 0 -> exists l, log_term sb = Py.Ok l.
Proof.
  intros Hne. unfold log_term, Py.truediv.
  rewrite decide_false_R by assumption. eexists. reflexivity.
Qed.

(** When the fit fails, the tab reports the message of the exception and
    leaves the session as it was: a coefficient stored by an earlier run
    stays the one the results tab shows. *)
Theorem tab2_failed_fit
    (s : app) (df : loc) (d : gmap string (list R)) (ts hs : list R)
    (e : Py.exn) :
  df_exp (session s) = Some df -> objects s !! df = Some d ->
  d !! "tempo" = Some ts -> d !! "altura" = Some hs ->
  curve_fit (modelo_diffusao_array sb) ts hs p0 = Py.Raise e ->
  tab2 sb curve_fit s
  = (Py.Ok (),
     {| objects := objects s;
        screen := screen s ++
          [failure (error ("Erro no ajuste de curva: " +:+ Py.str e))];
        session := session s |}).
Proof.
  intros Hs Hdf Hts Hhs Hfit. unfold tab2.
  rewrite (bind_Ok_Ap _ _ s s (session s)) by reflexivity. rewrite Hs.
  unfold try_except_Ap.
  rewrite (bind_Ok_Ap _ _ s s ts) by (apply (run_getitem s df d); assumption).
  rewrite (bind_Ok_Ap _ _ s s hs) by (apply (run_getitem s df d); assumption).
  rewrite (bind_Raise_Ap _ _ s s e) by (unfold raise_or_return; now rewrite Hfit).
  reflexivity.
Qed.

Lemma tab2_run_fit
    (s : app) (df : loc) (d : gmap string (list R)) (ts hs : list R)
    (D : R) (popt : list R) (pcov : list (list Np.float64)) :
  df_exp (session s) = Some df -> objects s !! df = Some d -> processed d ->
  d !! "tempo" = Some ts -> d !! "altura" = Some hs ->
  curve_fit (modelo_diffusao_array sb) ts hs p0 = Py.Ok (D :: popt, pcov) ->
  P_total sb - P_A1 <> 0 ->
  tab2 sb curve_fit s
  = (Py.Ok (),
     {| objects := objects s; screen := screen s;
        session := {| df_exp := Some df; D_AB_exp := Some D |} |}).
Proof.
  intros Hs Hdf (ts' & hs' & z0 & Hts' & Hhs' & Hz0 & Hdz) Hts Hhs Hfit HP.
  assert (ts' = ts) as -> by congruence. assert (hs' = hs) as -> by congruence.
  destruct (log_term_defined HP) as [l Hl].
  set (s2 := {| objects := objects s; screen := screen s;
                session := {| df_exp := Some df; D_AB_exp := Some D |} |}).
  assert (forall c col, d !! c = Some col ->
            run (df_getitem df c) s2 = (Py.Ok col, s2)) as Hget
    by (intros c col Hc; now apply (run_getitem s2 df d)).
  unfold tab2.
  rewrite (bind_Ok_Ap _ _ s s (session s)) by reflexivity. rewrite Hs.
  unfold try_except_Ap.
  rewrite (bind_Ok_Ap _ _ s s ts) by (apply (run_getitem s df d); assumption).
  rewrite (bind_Ok_Ap _ _ s s hs) by (apply (run_getitem s df d); assumption).
  rewrite (bind_Ok_Ap _ _ s s (D :: popt, pcov))
    by (unfold raise_or_return; now rewrite Hfit).
  rewrite (bind_Ok_Ap _ _ s s D) by reflexivity.
  rewrite (bind_Ok_Ap _ _ s s (session s)) by reflexivity.
  rewrite (bind_Ok_Ap _ _ s s2 ()) by (unfold set_session, s2; now rewrite Hs).
  rewrite (bind_Ok_Ap _ _ s2 s2 ts) by now apply Hget.
  erewrite (bind_Ok_Ap _ _ s2 s2)
    by (unfold raise_or_return, h_ajustado, modelo_diffusao_float64;
        rewrite Hl; reflexivity).
  rewrite (bind_Ok_Ap _ _ s2 s2 ts) by now apply Hget.
  rewrite (bind_Ok_Ap _ _ s2 s2 hs) by now apply Hget.
  rewrite (bind_Ok_Ap _ _ s2 s2 ts) by now apply Hget.
  erewrite (bind_Ok_Ap _ _ s2 s2) by (apply Hget; exact Hdz).
  erewrite (bind_Ok_Ap _ _ s2 s2).
  2:{ unfold z2_teorico.
      rewrite (bind_Ok_Ap _ _ s2 s2 ts) by now apply Hget.
      erewrite (bind_Ok_Ap _ _ s2 s2)
        by (unfold raise_or_return, modelo_diffusao_array;
            rewrite Hl; reflexivity).
      rewrite (bind_Ok_Ap _ _ s2 s2 hs) by now apply Hget.
      rewrite (bind_Ok_Ap _ _ s2 s2 z0)
        by (unfold raise_or_return, Pd.iloc; now rewrite Hz0).
      reflexivity. }
  rewrite (bind_Ok_Ap _ _ s2 s2 ts) by now apply Hget.
  reflexivity.
Qed.

(** When the fit returns and the pressure is not the vapour pressure, the
    tab stores the first optimal parameter in the session, writes no
    message and changes nothing else. *)
Theorem tab2_fit
    (s : app) (df : loc) (d : gmap string (list R)) (ts hs : list R)
    (D : R) (popt : list R) (pcov : list (list Np.float64)) :
  df_exp (session s) = Some df -> objects s !! df = Some d -> processed d ->
  d !! "tempo" = Some ts -> d !! "altura" = Some hs ->
  curve_fit (modelo_diffusao_array sb) ts hs p0 = Py.Ok (D :: popt, pcov) ->
  P_total sb - P_A1 <> 0 ->
  tab2 sb curve_fit s
  = (Py.Ok (),
     {| objects := objects s; screen := screen s;
        session := {| df_exp := Some df; D_AB_exp := Some D |} |}).
Proof. apply tab2_run_fit. Qed.

End Tab2_properties.

Lemma app_exemplo_table (D : option R) :
  objects (app_exemplo D) !! 1%positive
  = Some (<["delta_z2" := Pd.sub (Pd.pow [0.05; 0.052] 2) (0.05 ^ 2)]>
            (tabela [0; 60] [0.05; 0.052])).
Proof. apply lookup_singleton_eq. Qed.

Lemma tab2_after_fit :
  tab2 sidebar_inicial (fun _ _ _ _ => Py.Ok ([2e-5], [])) (app_exemplo None)
  = (Py.Ok (),
     {| objects := objects (app_exemplo None);
        screen := screen (app_exemplo None);
        session := {| df_exp := Some 1%positive; D_AB_exp := Some 2e-5 |} |}).
Proof.
  apply (tab2_fit sidebar_inicial (fun _ _ _ _ => Py.Ok ([2e-5], []))
           (app_exemplo None) 1%positive
           (<["delta_z2" := Pd.sub (Pd.pow [0.05; 0.052] 2) (0.05 ^ 2)]>
              (tabela [0; 60] [0.05; 0.052]))
           [0; 60] [0.05; 0.052] 2e-5 [] []).
  - reflexivity.
  - apply app_exemplo_table.
  - exists [0; 60], [0.05; 0.052], 0.05. unfold tabela.
    split; [rewrite !lookup_insert_ne by discriminate; apply lookup_insert_eq |].
    split; [rewrite lookup_insert_ne by discriminate; apply lookup_insert_eq |].
    split; [reflexivity | apply lookup_insert_eq].
  - unfold tabela. rewrite !lookup_insert_ne by discriminate.
    apply lookup_insert_eq.
  - unfold tabela. rewrite lookup_insert_ne by discriminate.
    apply lookup_insert_eq.
  - reflexivity.
  - sidebar_lra.
Defined.

Lemma tab2_after_failed_fit :
  tab2 sidebar_inicial
       (fun _ _ _ _ => Py.Raise (Py.ZeroDivisionError "float division by zero"))
       (app_exemplo (Some 1e-5))
  = (Py.Ok (),
     {| objects := objects (app_exemplo (Some 1e-5));
        screen := screen (app_exemplo (Some 1e-5)) ++
          [failure (error ("Erro no ajuste de curva: " +:+
                           Py.str (Py.ZeroDivisionError "float division by zero")))];
        session := session (app_exemplo (Some 1e-5)) |}).
Proof.
  apply (tab2_failed_fit sidebar_inicial
           (fun _ _ _ _ => Py.Raise (Py.ZeroDivisionError "float division by zero"))
           (app_exemplo (Some 1e-5)) 1%positive
           (<["delta_z2" := Pd.sub (Pd.pow [0.05; 0.052] 2) (0.05 ^ 2)]>
              (tabela [0; 60] [0.05; 0.052]))
           [0; 60] [0.05; 0.052]).
  - reflexivity.
  - apply app_exemplo_table.
  - unfold tabela. rewrite !lookup_insert_ne by discriminate.
    apply lookup_insert_eq.
  - unfold tabela. rewrite lookup_insert_ne by discriminate.
    apply lookup_insert_eq.
  - reflexivity.
Defined.

(** ** The curves of the fit tab *)

Lemma modelo_diffusao_float64_Fin (sb : sidebar) (ts : list R) (D : R) :
  modelo_diffusao_float64 sb (Np.Fin <$> ts) D = modelo_diffusao_array sb ts D.
Proof.
  unfold modelo_diffusao_float64, modelo_diffusao_array.
  destruct (log_term sb); cbn; [| reflexivity].
  f_equal. rewrite <- list_fmap_compose. reflexivity.
Qed.

Lemma linspace_fin_length (a b : R) (n : nat) :
  length (NpArray.linspace_fin a b n) = n.
Proof.
  destruct n as [| [| n]]; [reflexivity | reflexivity |].
  unfold NpArray.linspace_fin.
  rewrite length_app, length_fmap, length_seq. cbn. lia.
Qed.

Lemma linspace_fin_lookup (a b : R) (n i : nat) :
  (i <= S n)%nat ->
  NpArray.linspace_fin a b (S (S n)) !! i
  = Some (a + INR i * ((b - a) / INR (S n))).
Proof.
  intros Hi. unfold NpArray.linspace_fin.
  destruct (decide (i = S n)) as [-> | Hne].
  - rewrite lookup_app_r by (rewrite length_fmap, length_seq; lia).
    rewrite length_fmap, length_seq, Nat.sub_diag. cbn [lookup list_lookup].
    f_equal. field. apply not_0_INR. discriminate.
  - rewrite lookup_app_l by (rewrite length_fmap, length_seq; lia).
    rewrite list_lookup_fmap, lookup_seq_lt by lia. reflexivity.
Qed.

Lemma foldl_Rmax_ge (s : list R) (x : R) :
  x <= foldl Rmax x s /\ Forall (fun y => y <= foldl Rmax x s) s.
Proof.
  revert x. induction s as [| a s IH]; intros x; cbn.
  - split; [lra | constructor].
  - destruct (IH (Rmax x a)) as [H1 H2].
    pose proof (Rmax_l x a). pose proof (Rmax_r x a).
    split; [lra |]. constructor; [lra | assumption].
Qed.

(** On valid parameters, for a table with at least one time, none of them
    negative, and a non-negative coefficient, the fitted curve of the first
    plot has 100 points, starts at height 0, ends at the height of the
    model at the largest time, and never goes down. *)
Theorem h_ajustado_curve (sb : sidebar) (tempo : list R) (D : R) :
  parametros_validos sb -> tempo <> [] -> Forall (fun t => 0 <= t) tempo ->
  0 <= D ->
  exists hs t_max,
    h_ajustado sb tempo D = Py.Ok hs /\
    length hs = 100%nat /\
    Pd.max tempo = Np.Fin t_max /\
    hs !! 0%nat = Some (Np.Fin 0) /\
    hs !! 99%nat = Some (Np.Fin (predicted_height sb t_max D)) /\
    (forall i j a b, (i <= j)%nat -> hs !! i = Some a -> hs !! j = Some b ->
                     Np.le a b).
Proof.
  intros Hv Hne Hpos HD.
  destruct tempo as [| t0 ts]; [contradiction |].
  set (m := foldl Rmax t0 ts).
  assert (0 <= m) as Hm.
  { destruct (foldl_Rmax_ge ts t0) as [H _].
    apply Forall_cons in Hpos as [H0 _]. unfold m. lra. }
  assert (0 <= (m - 0) / INR 99) as Hstep.
  { apply Rmult_le_pos; [lra |]. apply Rlt_le, Rinv_0_lt_compat.
    apply lt_0_INR. lia. }
  assert (forall i, (i <= 99)%nat ->
            NpArray.linspace_fin 0 m 100 !! i
            = Some (0 + INR i * ((m - 0) / INR 99))) as Hlook
    by (intros i Hi; now apply (linspace_fin_lookup 0 m 98 i)).
  assert (Forall (fun t => 0 <= t) (NpArray.linspace_fin 0 m 100)) as Hall.
  { apply Forall_lookup. intros i x Hx.
    assert (i < 100)%nat as Hi
      by (apply lookup_lt_Some in Hx; now rewrite linspace_fin_length in Hx).
    rewrite Hlook in Hx by lia. injection Hx as <-.
    pose proof (pos_INR i). apply Rplus_le_le_0_compat; [lra |].
    now apply Rmult_le_pos. }
  exists ((fun t => Np.Fin (predicted_height sb t D))
            <$> NpArray.linspace_fin 0 m 100), m.
  split.
  { unfold h_ajustado, t_range. change (Pd.max (t0 :: ts)) with (Np.Fin m).
    cbn [NpArray.linspace].
    rewrite modelo_diffusao_float64_Fin.
    now apply modelo_diffusao_array_valid. }
  split; [now rewrite length_fmap, linspace_fin_length |].
  split; [reflexivity |].
  split.
  { rewrite list_lookup_fmap, Hlook by lia. cbn [fmap option_fmap option_map].
    do 2 f_equal. rewrite predicted_height_k by assumption.
    replace (0 + INR 0 * ((m - 0) / INR 99)) with 0 by (cbn [INR]; lra).
    now rewrite Rmult_0_r, Rmult_0_r, sqrt_0. }
  split.
  { rewrite list_lookup_fmap, Hlook by lia. cbn [fmap option_fmap option_map].
    do 3 f_equal. field. apply not_0_INR. discriminate. }
  intros i j a b Hij Ha Hb.
  rewrite list_lookup_fmap in Ha, Hb.
  assert (j < 100)%nat as Hj.
  { destruct (NpArray.linspace_fin 0 m 100 !! j) eqn:E; [| discriminate].
    apply lookup_lt_Some in E. now rewrite linspace_fin_length in E. }
  rewrite Hlook in Ha, Hb by lia. cbn in Ha, Hb.
  injection Ha as <-. injection Hb as <-. cbn [Np.le].
  apply predicted_height_mono; try assumption.
  - pose proof (pos_INR i). apply Rplus_le_le_0_compat; [lra |].
    now apply Rmult_le_pos.
  - apply Rplus_le_compat_l. apply Rmult_le_compat_r; [assumption |].
    now apply le_INR.
  - lra.
Qed.

Lemma h_ajustado_curve_inicial :
  exists hs t_max,
    h_ajustado sidebar_inicial [0; 60; 120] 1e-5 = Py.Ok hs /\
    length hs = 100%nat /\
    Pd.max [0; 60; 120] = Np.Fin t_max /\
    hs !! 0%nat = Some (Np.Fin 0) /\
    hs !! 99%nat = Some (Np.Fin (predicted_height sidebar_inicial t_max 1e-5)) /\
    (forall i j a b, (i <= j)%nat -> hs !! i = Some a -> hs !! j = Some b ->
                     Np.le a b).
Proof.
  apply (h_ajustado_curve sidebar_inicial [0; 60; 120] 1e-5).
  - sidebar_lra.
  - discriminate.
  - repeat constructor; lra.
  - lra.
Defined.

(** On valid parameters, for non-negative times and a non-negative
    coefficient, the theoretical line of the second plot is a straight line
    in the time: [k * D * t] less the square of the first height.  It
    reads the table and changes nothing. *)
Theorem z2_teorico_line
    (sb : sidebar) (s : app) (df : loc) (d : gmap string (list R))
    (ts hs : list R) (z0 D : R) :
  parametros_validos sb ->
  objects s !! df = Some d -> d !! "tempo" = Some ts ->
  d !! "altura" = Some hs -> hs !! 0%nat = Some z0 ->
  Forall (fun t => 0 <= t) ts -> 0 <= D ->
  z2_teorico sb df D s
  = (Py.Ok ((fun t => Np.Fin (k_modelo sb * D * t - z0 ^ 2)) <$> ts), s).
Proof.
  intros Hv Hdf Hts Hhs Hz0 Hpos HD. unfold z2_teorico.
  rewrite (bind_Ok_Ap _ _ s s ts) by now apply (run_getitem s df d).
  rewrite (bind_Ok_Ap _ _ s s
             ((fun t => Np.Fin (predicted_height sb t D)) <$> ts))
    by (unfold raise_or_return; now rewrite modelo_diffusao_array_valid).
  rewrite (bind_Ok_Ap _ _ s s hs) by now apply (run_getitem s df d).
  rewrite (bind_Ok_Ap _ _ s s z0)
    by (unfold raise_or_return, Pd.iloc; now rewrite Hz0).
  unfold mret, Ap_ret. do 2 f_equal.
  change (map ?f ?l) with (f <$> l). rewrite <- list_fmap_compose.
  apply Forall_fmap_ext_1. eapply Forall_impl; [exact Hpos |].
  intros t Ht. cbn. f_equal. f_equal.
  rewrite predicted_height_k by assumption.
  pose proof (k_modelo_pos sb Hv).
  rewrite sqrt_sqrt; [ring |].
  apply Rmult_le_pos; [lra |]. now apply Rmult_le_pos.
Qed.

Lemma z2_teorico_line_exemplo :
  z2_teorico sidebar_inicial 1%positive 2e-5 (app_exemplo None)
  = (Py.Ok ((fun t => Np.Fin (k_modelo sidebar_inicial * 2e-5 * t - 0.05 ^ 2))
              <$> [0; 60]),
     app_exemplo None).
Proof.
  apply (z2_teorico_line sidebar_inicial (app_exemplo None) 1%positive
           (<["delta_z2" := Pd.sub (Pd.pow [0.05; 0.052] 2) (0.05 ^ 2)]>
              (tabela [0; 60] [0.05; 0.052]))
           [0; 60] [0.05; 0.052] 0.05 2e-5).
  - sidebar_lra.
  - apply app_exemplo_table.
  - unfold tabela. rewrite !lookup_insert_ne by discriminate.
    apply lookup_insert_eq.
  - unfold tabela. rewrite lookup_insert_ne by discriminate.
    apply lookup_insert_eq.
  - reflexivity.
  - repeat constructor; lra.
  - lra.
Defined.

(** ** From the upload to the stored coefficient *)

(** One run with an accepted upload: the fit is called on the times and on
    the heights after the unit test, not on the uploaded heights; when it
    returns, the session holds the new table and the first optimal
    parameter, and the only message on the screen is the one of the
    upload. *)
Theorem tab1_then_tab2
    (sb : sidebar)
    (curve_fit : (list R -> R -> Py.result (list Np.float64)) ->
                 list R -> list R -> list R ->
                 Py.result (list R * list (list Np.float64)))
    (d : gmap string (list R)) (ts hs : list R) (s : app)
    (D : R) (popt : list R) (pcov : list (list Np.float64)) :
  d !! "tempo" = Some ts -> d !! "altura" = Some hs -> hs <> [] ->
  curve_fit (modelo_diffusao_array sb) ts (altura_em_metros hs) p0
  = Py.Ok (D :: popt, pcov) ->
  P_total sb - P_A1 <> 0 ->
  exists s',
    (tab1 (Some (Py.Ok d)) ≫= fun _ => tab2 sb curve_fit) s = (Py.Ok (), s') /\
    session s' = {| df_exp := Some (fresh (dom (objects s)));
                    D_AB_exp := Some D |} /\
    screen s' = screen s ++ [success "Arquivo carregado com sucesso!"].
Proof.
  intros Hts Hhs Hne Hfit HP.
  destruct (tab1_cases (Some (Py.Ok d)) s)
    as (s1 & Hrun & [(_ & _ & Hemp) | Hacc]).
  { exfalso. apply Hne.
    apply (Hemp d hs); [reflexivity | now exists ts | assumption]. }
  destruct Hacc as (d0 & d' & ts0 & hs0 & [= <-] & Hts0 & Hhs0 & _ & Hp & Ha
                    & Ht & Hscr & Hobj & Hs).
  assert (ts0 = ts) as -> by congruence. assert (hs0 = hs) as -> by congruence.
  rewrite (bind_Ok_Ap _ _ s s1 ()) by assumption.
  rewrite (tab2_run_fit sb curve_fit s1 (fresh (dom (objects s))) d' ts
             (altura_em_metros hs) D popt pcov);
    [| now rewrite Hs | rewrite Hobj; apply lookup_insert_eq
     | assumption | assumption | assumption | assumption | assumption].
  eexists. split; [reflexivity |]. cbn. split; [reflexivity | assumption].
Qed.

Lemma tab1_then_tab2_cm :
  exists s',
    (tab1 (Some (Py.Ok (tabela [0; 60; 120] [5.0; 5.2; 5.35])))
     ≫= fun _ => tab2 sidebar_inicial (fun _ _ _ _ => Py.Ok ([2e-5], [])))
      (App ∅ [] (SessionState None None))
    = (Py.Ok (), s') /\
    session s'
    = {| df_exp := Some (fresh (dom (objects (App ∅ [] (SessionState None None)))));
         D_AB_exp := Some 2e-5 |} /\
    screen s'
    = screen (App ∅ [] (SessionState None None))
      ++ [success "Arquivo carregado com sucesso!"].
Proof.
  apply (tab1_then_tab2 sidebar_inicial (fun _ _ _ _ => Py.Ok ([2e-5], []))
           (tabela [0; 60; 120] [5.0; 5.2; 5.35])
           [0; 60; 120] [5.0; 5.2; 5.35]
           (App ∅ [] (SessionState None None)) 2e-5 [] []).
  - unfold tabela. rewrite lookup_insert_ne by discriminate.
    apply lookup_insert_eq.
  - apply lookup_insert_eq.
  - discriminate.
  - reflexivity.
  - sidebar_lra.
Defined.

(** ** The sign of the relative error *)

(** The relative error carries the sign of the theoretical coefficient:
    for a positive one it is a non-negative percentage, zero exactly when
    the two coefficients are equal; for a negative one it is never
    positive, because only the numerator is an absolute value. *)
Theorem erro_relativo_sign (Dt De : R) :
  Dt <> 0 ->
  exists x,
    erro_relativo Dt De = Np.Fin x /\
    (0 < Dt -> 0 <= x /\ (x = 0 <-> De = Dt)) /\
    (Dt < 0 -> x <= 0).
Proof.
  intros Hne. exists (Rabs (Dt - De) / Dt * 100).
  split; [now apply erro_relativo_nonzero |].
  pose proof (Rabs_pos (Dt - De)) as Habs.
  split.
  - intros Hpos. assert (0 < / Dt) as Hi by now apply Rinv_0_lt_compat.
    unfold Rdiv. split; [apply Rmult_le_pos; [apply Rmult_le_pos |]; lra |].
    split.
    + intros Hz.
      assert (Rabs (Dt - De) = 0) as H0.
      { apply Rmult_integral in Hz as [Hz | Hz]; [| lra].
        apply Rmult_integral in Hz as [Hz | Hz]; [assumption | lra]. }
      destruct (Req_dec (Dt - De) 0) as [E | E]; [lra |].
      apply Rabs_no_R0 in E. contradiction.
    + intros ->. rewrite Rminus_diag, Rabs_R0. ring.
  - intros Hneg. assert (/ Dt < 0) as Hi by now apply Rinv_lt_0_compat.
    unfold Rdiv. nra.
Qed.

Lemma erro_relativo_sign_negativo :
  exists x,
    erro_relativo (-1e-5) 1e-5 = Np.Fin x /\
    (0 < -1e-5 -> 0 <= x /\ (x = 0 <-> 1e-5 = -1e-5)) /\
    (-1e-5 < 0 -> x <= 0).
Proof.
  apply (erro_relativo_sign (-1e-5) 1e-5). lra.
Defined.
